(** * cairoplot/series.py: the [Data] and [Series] value model

    A shallow embedding of [src/cairoplot/series.py] (Python 2): the values
    the two classes inspect, a heap of [Data] instances, the property
    setters with the exceptions they raise, and the statements of the
    specification settled against them. *)

From Stdlib Require Import ZArith List Bool String SpecFloat Lia.
From stdpp Require Import base decidable list strings.

Local Open Scope nat_scope.
Set Warnings "-register-all".

(** ** Python values *)

(** A [Data] instance lives on the heap and is known by its location. *)
Definition loc := nat.

(** The values that can reach the setters. [int] and [long] carry an
    integer, [float] an IEEE 754 value; [VObject] is an instance of any
    class the module does not name (a dict, a [Series], a subclass of
    [tuple] or of [Data], ...). *)
Inductive pyval : Type :=
| VNone
| VBool (b : bool)
| VInt (n : Z)
| VLong (n : Z)
| VFloat (x : spec_float)
| VStr (s : string)
| VUnicode (s : string)
| VTuple (items : list pyval)
| VList (items : list pyval)
| VData (l : loc)
| VObject (cls : string).

(** What [type(x)] returns. *)
Inductive pytype : Type :=
| NoneType | bool_ | int | long | float | str | unicode | tuple | list_
| Data_ | other (cls : string).

Global Instance pytype_eq_dec : EqDecision pytype.
Proof. solve_decision. Defined.

Definition type (x : pyval) : pytype :=
  match x with
  | VNone => NoneType
  | VBool _ => bool_
  | VInt _ => int
  | VLong _ => long
  | VFloat _ => float
  | VStr _ => str
  | VUnicode _ => unicode
  | VTuple _ => tuple
  | VList _ => list_
  | VData _ => Data_
  | VObject cls => other cls
  end.

(** Module constants (lines 27-29). *)
Definition NUM_TYPES : list pytype := [int; float; long].
Definition DATA_TYPES : list pytype := [int; float; long; tuple].
Definition STR_TYPES : list pytype := [str; unicode].

(** [t in ts] for a type and a tuple of types. *)
Definition type_in (t : pytype) (ts : list pytype) : bool :=
  bool_decide (t ∈ ts).

(** [max] of a non-empty list of booleans, as the setters use it on the
    result of [map]: the list holds a [True] exactly when its maximum is
    [True]. *)
Definition py_max (bs : list bool) : bool := foldr orb false bs.

(** [x is None] *)
Definition is_None (x : pyval) : bool :=
  match x with VNone => true | _ => false end.

(** [type(x) in NUM_TYPES]: the value is a number. *)
Definition numeric (x : pyval) : bool := type_in (type x) NUM_TYPES.

(** ** Exceptions *)

(** Every exception of the module is a [TypeError]; the raise sites differ
    in their message. The first six are the module's own, the next two are
    the interpreter's ([x[:]] and [len(x)] on a value that supports
    neither). *)
Inductive message : Type :=
| two_or_three_items      (* line 85 *)
| all_content_numbers     (* line 92 *)
| content_must_be_numeric (* line 103 *)
| name_must_be_string     (* lines 127 and 249 *)
| series_must_be_list     (* line 211 *)
| series_not_both_types   (* line 218 *)
| no_getitem
| no_len.

(** [dangling] is not a Python exception: it is the model's answer when a
    location that holds no object is followed, which no run of the program
    does. *)
Inductive exn : Type :=
| TypeError (msg : message)
| dangling.

Global Instance message_eq_dec : EqDecision message.
Proof. solve_decision. Defined.
Global Instance exn_eq_dec : EqDecision exn.
Proof. solve_decision. Defined.

(** ** State and exceptions *)

Inductive outcome (A : Type) : Type :=
| Return (a : A)
| Raise (e : exn).
Arguments Return {A} a.
Arguments Raise {A} e.

(** A computation over a state [S]: it ends normally or by an exception,
    and in both cases leaves a state behind. *)
Definition M (S A : Type) : Type := S -> outcome A * S.

Definition ret {S A} (a : A) : M S A := fun s => (Return a, s).
Definition raise {S A} (e : exn) : M S A := fun s => (Raise e, s).
Definition bind {S A B} (m : M S A) (k : A -> M S B) : M S B :=
  fun s => match m s with
           | (Return a, s') => k a s'
           | (Raise e, s') => (Raise e, s')
           end.
Definition lift {S A} (o : outcome A) : M S A := fun s => (o, s).

Notation "'let*' x ':=' m 'in' k" := (bind m (fun x => k))
  (at level 10, x name, m at level 100, k at level 200, only parsing).
Notation "m >> k" := (bind m (fun _ => k))
  (at level 100, k at level 200, right associativity, only parsing).

(** [for item in items: body(item)] *)
Fixpoint for_each {S A} (items : list A) (body : A -> M S unit) : M S unit :=
  match items with
  | [] => ret tt
  | item :: rest => body item >> for_each rest body
  end.

(** ** Built-in operations on values *)

(** [len(x)], on the values the module applies it to: a name that has
    passed the type test, and a stored content. An instance of a class
    ([VData], [VObject]) never gets there and is given no length. *)
Definition len (x : pyval) : outcome nat :=
  match x with
  | VStr s | VUnicode s => Return (String.length s)
  | VTuple items | VList items => Return (length items)
  | _ => Raise (TypeError no_len)
  end.

(** [x[:]], on the values the module applies it to: a stored content. *)
Definition getslice (x : pyval) : outcome pyval :=
  match x with
  | VStr _ | VUnicode _ | VTuple _ | VList _ => Return x
  | _ => Raise (TypeError no_getitem)
  end.

(** ** class Data *)

Module Data.

Record t : Type := mk { _name : pyval; _content : pyval }.

(** The getters (lines 54-68 and 106-116). *)
Definition content (self : t) : pyval := _content self.
Definition name (self : t) : pyval := _name self.

(** [self._content = v] and [self._name = v]. *)
Definition assign_content (v : pyval) : M t unit :=
  fun self => (Return tt, {| _name := _name self; _content := v |}).
Definition assign_name (v : pyval) : M t unit :=
  fun self => (Return tt, {| _name := v; _content := _content self |}).

(** Line 88: the lambda is true on the items that are NOT numbers. *)
Definition is_num (x : pyval) : bool := negb (type_in (type x) NUM_TYPES).

(** The content setter (lines 70-103). *)
Definition content_setter (content : pyval) : M t unit :=
  match content with
  | VNone => assign_content VNone
  | _ =>
    if type_in (type content) NUM_TYPES then
      assign_content (VTuple [content; VInt 0; VInt 0])
    else
      match content with
      | VTuple items =>
        if negb (bool_decide (length items ∈ [2; 3])) then
          raise (TypeError two_or_three_items)
        else if py_max (map is_num items) then
          raise (TypeError all_content_numbers)
        else
          match items with
          | [c0; c1] => assign_content (VTuple [c0; c1; VInt 0])
          | [_; _; _] => assign_content (VTuple items)
          | _ => ret tt
          end
      | _ =>
        assign_content (VInt 0) >>
        raise (TypeError content_must_be_numeric)
      end
  end.

(** The name setter (lines 118-127). [len(name)] is evaluated only when
    the type test before [and] is true. *)
Definition name_setter (name : pyval) : M t unit :=
  let* valid := (if type_in (type name) STR_TYPES
                 then let* n := lift (len name) in ret (0 <? n)
                 else ret false) in
  if (valid : bool) then assign_name name
  else match name with
       | VNone => assign_name VNone
       | _ => assign_name VNone >> raise (TypeError name_must_be_string)
       end.

(** [clear] (lines 129-132). *)
Definition clear : M t unit :=
  name_setter VNone >> content_setter VNone.

(** [__len__] (lines 150-156). *)
Definition __len__ (self : t) : outcome nat := len (content self).

(** *** Instances on the heap *)

(** The heap holds the state of every [Data] instance made so far; a new
    instance takes the next location. *)
Abbreviation heap := (list t).

Definition deref (l : loc) : M heap t :=
  fun h => match h !! l with
           | Some d => (Return d, h)
           | None => (Raise dangling, h)
           end.

(** Run a setter on the instance at [l]. *)
Definition on (l : loc) {A} (m : M t A) : M heap A :=
  fun h => match h !! l with
           | Some d => let (r, d') := m d in (r, <[l := d']> h)
           | None => (Raise dangling, h)
           end.

(** An instance before [__init__] has bound its attributes. Both setters
    bind theirs whenever they return, and an instance whose [__init__]
    raised is never handed out, so this state is never observed. *)
Definition unbound : t := {| _name := VNone; _content := VNone |}.

(** [__init__] (lines 49-52): content first, then name. *)
Definition __init__ (name content : pyval) : M t unit :=
  content_setter content >> name_setter name.

(** [Data(name, content)]: the instance is on the heap only if
    [__init__] returned. *)
Definition new (name content : pyval) : M heap loc :=
  fun h => match __init__ name content unbound with
           | (Return _, d) => (Return (length h), h ++ [d])
           | (Raise e, _) => (Raise e, h)
           end.

(** [copy] (lines 134-143). *)
Definition copy (self : loc) : M heap loc :=
  let* me := deref self in
  let* new_data := new VNone VNone in
  let* _ := (if negb (is_None (name me))
             then on new_data (name_setter (name me))
             else ret tt) in
  let* c := lift (getslice (content me)) in
  let* _ := on new_data (content_setter c) in
  ret new_data.

End Data.

(** ** class Series *)

Module Series.

(** The stored content is a Python list of [Data] instances. *)
Record t : Type := mk { _name : pyval; _content : list loc }.

Definition content (self : t) : list loc := _content self.
Definition name (self : t) : pyval := _name self.

(** A setter of a series runs on the heap and on the series itself. *)
Abbreviation state := (Data.heap * t)%type.

Definition assign_content (v : list loc) : M state unit :=
  fun '(h, self) => (Return tt, (h, {| _name := _name self; _content := v |})).
Definition assign_name (v : pyval) : M state unit :=
  fun '(h, self) => (Return tt, (h, {| _name := v; _content := _content self |})).

(** [self._content.append(d)] *)
Definition append (d : loc) : M state unit :=
  fun '(h, self) =>
    (Return tt, (h, {| _name := _name self; _content := _content self ++ [d] |})).

Definition on_heap {A} (m : M Data.heap A) : M state A :=
  fun '(h, self) => let (r, h') := m h in (r, (h', self)).

(** Lines 202-203. *)
Definition is_num (x : pyval) : bool := type_in (type x) NUM_TYPES.
Definition is_tuple (x : pyval) : bool := bool_decide (type x = tuple).

(** The body of the loop (lines 223-226). *)
Definition loop_body (item : pyval) : M state unit :=
  match item with
  | VData d => let* c := on_heap (Data.copy d) in append c
  | _ => let* c := on_heap (Data.new VNone item) in append c
  end.

(** The content setter (lines 199-226). *)
Definition content_setter (content : pyval) : M state unit :=
  match content with
  | VNone => assign_content []
  | VList items =>
    if length items =? 0 then assign_content []
    else if py_max (map is_num items) && py_max (map is_tuple items) then
      raise (TypeError series_not_both_types)
    else
      assign_content [] >>
      for_each items loop_body
  | _ =>
    assign_content [] >>
    raise (TypeError series_must_be_list)
  end.

(** The name setter (lines 240-249). *)
Definition name_setter (name : pyval) : M state unit :=
  let* valid := (if type_in (type name) STR_TYPES
                 then let* n := lift (len name) in ret (0 <? n)
                 else ret false) in
  if (valid : bool) then assign_name name
  else match name with
       | VNone => assign_name VNone
       | _ => assign_name VNone >> raise (TypeError name_must_be_string)
       end.

(** [clear] (lines 251-254). *)
Definition clear : M state unit :=
  name_setter VNone >> content_setter (VList []).

(** [__len__] (lines 261-263). *)
Definition __len__ (self : t) : nat := length (content self).

(** [__init__] (lines 180-183): name first, then content. *)
Definition __init__ (name content : pyval) : M state unit :=
  name_setter name >> content_setter content.

End Series.

(** ** Running examples *)

(** [Data('a', 1)] and [Series()]. *)
Definition d0 : Data.t :=
  {| Data._name := VStr "a"; Data._content := VTuple [VInt 1; VInt 0; VInt 0] |}.
Definition s0 : Series.t :=
  {| Series._name := VNone; Series._content := [] |}.

(** ** Invariant of the stored attributes *)

(** What the setters leave in [_name]: [None] or a non-empty text. *)
Definition name_ok (n : pyval) : bool :=
  match n with
  | VNone => true
  | VStr s | VUnicode s => 0 <? String.length s
  | _ => false
  end.

(** A point in canonical form: a 3-tuple of numbers. *)
Definition point (c : pyval) : bool :=
  match c with
  | VTuple [x; y; z] => numeric x && numeric y && numeric z
  | _ => false
  end.

(** What the setters leave in [_content]: [None], a point, or the
    placeholder [0] of a refused assignment. *)
Definition content_ok (c : pyval) : bool :=
  match c with
  | VNone | VInt 0 => true
  | _ => point c
  end.

Definition wf (d : Data.t) : bool :=
  name_ok (Data.name d) && content_ok (Data.content d).

(** What [copy] binds in the instance it makes, from the attributes of the
    instance it copies. *)
Definition copied (me : Data.t) : outcome unit * Data.t :=
  ((if negb (is_None (Data.name me))
    then Data.name_setter (Data.name me)
    else ret tt) >>
   let* c := lift (getslice (Data.content me)) in
   Data.content_setter c) (Data.mk VNone VNone).

(** What one round of the loop of [Series.content_setter] makes of an item
    on the heap [h]: the attributes of the new instance, or the exception. *)
Definition created (h : Data.heap) (item : pyval) : outcome unit * Data.t :=
  match item with
  | VData l =>
    match h !! l with
    | Some me => copied me
    | None => (Raise dangling, Data.unbound)
    end
  | _ => Data.__init__ VNone item Data.unbound
  end.

(** The instance a round leaves behind when it raises: the unfinished copy,
    which nothing refers to. *)
Definition litter (h : Data.heap) (item : pyval) : Data.heap :=
  match item with
  | VData l =>
    match h !! l with
    | Some me => [snd (copied me)]
    | None => []
    end
  | _ => []
  end.

(** A series with one more stored instance. *)
Definition push (s : Series.t) (c : loc) : Series.t :=
  Series.mk (Series.name s) (Series.content s ++ [c]).

(** The elements of a list that count for the shape test of a series. *)
Definition has_number (items : list pyval) : Prop :=
  exists a, a ∈ items /\ numeric a = true.
Definition has_tuple (items : list pyval) : Prop :=
  exists b, b ∈ items /\ type b = tuple.

(** An element of a list that the loop of the series setter stores
    without error on the heap [h]: [None], a number, a pair or a triple of
    numbers, or an instance whose content is a point. *)
Definition storable (h : Data.heap) (x : pyval) : Prop :=
  match x with
  | VNone => True
  | VTuple xs => (length xs = 2 \/ length xs = 3) /\ forallb numeric xs = true
  | VData l =>
    exists d, h !! l = Some d /\ wf d = true /\ point (Data.content d) = true
  | _ => numeric x = true
  end.

(** The values the content setter of [Data] takes, and what it stores for
    them; the setter is compared with these two below. *)
Definition acceptable (c : pyval) : bool :=
  match c with
  | VNone => true
  | VTuple xs => ((length xs =? 2) || (length xs =? 3)) && forallb numeric xs
  | _ => numeric c
  end.

Definition normal_form (c : pyval) : pyval :=
  match c with
  | VNone => VNone
  | VTuple [a; b] => VTuple [a; b; VInt 0]
  | VTuple xs => VTuple xs
  | _ => VTuple [c; VInt 0; VInt 0]
  end.

(** The ways a caller changes an instance it holds, and a run of them in
    which the caller goes on after each exception. *)
Inductive call : Type :=
| set_content (v : pyval)
| set_name (v : pyval)
| call_clear.

Definition do_call (c : call) : M Data.t unit :=
  match c with
  | set_content v => Data.content_setter v
  | set_name v => Data.name_setter v
  | call_clear => Data.clear
  end.

Fixpoint run_calls (cs : list call) (self : Data.t) : Data.t :=
  match cs with
  | [] => self
  | c :: cs' => run_calls cs' (snd (do_call c self))
  end.

(** The built-in sequence types among the values. *)
Definition sequence (x : pyval) : bool :=
  type_in (type x) [str; unicode; tuple; list_].

(** Read the attributes of a record that is written out. *)
Ltac fields :=
  unfold Data.name, Data.content in *; cbn [Data._name Data._content] in *.

(** * Properties *)

(** ** Values and their types *)

Lemma numeric_spec x :
  numeric x = match x with VInt _ | VLong _ | VFloat _ => true | _ => false end.
Proof. by destruct x. Qed.

Lemma numeric_type x : numeric x = true <-> type x ∈ NUM_TYPES.
Proof. unfold numeric, type_in. apply bool_decide_eq_true. Qed.

Lemma arity_spec n : bool_decide (n ∈ [2; 3]) = (n =? 2) || (n =? 3).
Proof.
  by destruct n as [|[|[|[|n]]]].
Qed.

Lemma py_max_existsb {A} (f : A -> bool) xs : py_max (map f xs) = existsb f xs.
Proof. induction xs as [|x xs IH]; simpl; [done | by rewrite IH]. Qed.

Lemma py_max_not_all (f : pyval -> bool) xs :
  py_max (map (fun x => negb (f x)) xs) = negb (forallb f xs).
Proof.
  induction xs as [|x xs IH]; simpl; [done |].
  rewrite IH. by destruct (f x).
Qed.

(** ** The content setter of [Data] *)

Lemma content_setter_None self :
  Data.content_setter VNone self = (Return tt, Data.mk (Data.name self) VNone).
Proof. reflexivity. Qed.

Lemma content_setter_numeric self v :
  numeric v = true ->
  Data.content_setter v self
  = (Return tt, Data.mk (Data.name self) (VTuple [v; VInt 0; VInt 0])).
Proof. rewrite numeric_spec. by destruct v. Qed.

(** The tuple branch, with its three ways out. *)
Lemma content_setter_tuple self items :
  Data.content_setter (VTuple items) self =
  if negb ((length items =? 2) || (length items =? 3)) then
    (Raise (TypeError two_or_three_items), self)
  else if negb (forallb numeric items) then
    (Raise (TypeError all_content_numbers), self)
  else
    (Return tt,
     Data.mk (Data.name self)
       (VTuple (if length items =? 2 then items ++ [VInt 0] else items))).
Proof.
  unfold Data.content_setter.
  change (type_in (type (VTuple items)) NUM_TYPES) with false. cbv iota.
  rewrite arity_spec.
  change Data.is_num with (fun x => negb (numeric x)).
  rewrite py_max_not_all.
  destruct items as [|a [|b [|c [|d rest]]]]; try reflexivity;
    cbn [length Nat.eqb orb negb]; by destruct (forallb _ _).
Qed.

(** Any other type: the placeholder is stored, then the error is raised. *)
Lemma content_setter_other self v :
  type v ∉ [NoneType; int; float; long; tuple] ->
  Data.content_setter v self
  = (Raise (TypeError content_must_be_numeric), Data.mk (Data.name self) (VInt 0)).
Proof.
  intros H. destruct v; try reflexivity; exfalso; apply H; simpl;
    rewrite !elem_of_cons; auto 10.
Qed.

Lemma type_cases v :
  v = VNone \/ numeric v = true \/ (exists items, v = VTuple items)
  \/ type v ∉ [NoneType; int; float; long; tuple].
Proof.
  destruct v; eauto;
    right; right; right; by apply (proj1 (bool_decide_eq_false _)).
Qed.

Lemma forallb_false_exists {A} (f : A -> bool) (xs : list A) :
  forallb f xs = false <-> exists x, x ∈ xs /\ f x = false.
Proof.
  induction xs as [|x xs IH]; simpl.
  - split; [discriminate | intros (x & Hx & _); by apply elem_of_nil in Hx].
  - rewrite andb_false_iff, IH. split.
    + intros [Hx | (y & Hy & Hf)].
      * exists x. split; [apply list_elem_of_here | done].
      * exists y. split; [by apply list_elem_of_further | done].
    + intros (y & Hy & Hf). apply elem_of_cons in Hy as [-> | Hy]; eauto.
Qed.

Lemma forallb_true_all {A} (f : A -> bool) (xs : list A) :
  forallb f xs = true <-> forall x, x ∈ xs -> f x = true.
Proof.
  rewrite forallb_forall. split; intros H x Hx; apply H; by apply list_elem_of_In.
Qed.

(** The two ways a content assignment fails: a tuple that is refused
    leaves the instance as it was, any other refused value leaves the
    placeholder behind. *)
Lemma content_setter_raise self v e self' :
  Data.content_setter v self = (Raise e, self') ->
  (type v = tuple /\ self' = self /\
   (e = TypeError two_or_three_items \/ e = TypeError all_content_numbers))
  \/ ((type v ∉ [NoneType; int; float; long; tuple]) /\
      self' = Data.mk (Data.name self) (VInt 0) /\
      e = TypeError content_must_be_numeric).
Proof.
  destruct (type_cases v) as [-> | [Hn | [[items ->] | Ho]]].
  - discriminate.
  - rewrite content_setter_numeric by done. discriminate.
  - rewrite content_setter_tuple.
    destruct (negb _); [intros [= <- <-]; auto |].
    destruct (negb _); [intros [= <- <-]; auto | discriminate].
  - rewrite content_setter_other by done. intros [= <- <-]. auto.
Qed.

(** The name setter in one equation. *)
Lemma name_setter_spec self n :
  Data.name_setter n self =
  if name_ok n then (Return tt, Data.mk n (Data.content self))
  else (Raise (TypeError name_must_be_string), Data.mk VNone (Data.content self)).
Proof.
  destruct n; try reflexivity;
    unfold Data.name_setter, bind, lift, ret; simpl;
    by destruct (0 <? String.length s).
Qed.

(** Both setters keep the invariant, whether they return or raise. *)
Lemma content_setter_wf self v r self' :
  Data.content_setter v self = (r, self') -> wf self = true -> wf self' = true.
Proof.
  unfold wf. intros Hs Hwf. apply andb_true_iff in Hwf as [Hn Hc].
  destruct (type_cases v) as [-> | [Hv | [[items ->] | Ho]]].
  - injection Hs as <- <-. fields. by rewrite Hn.
  - rewrite content_setter_numeric in Hs by done. injection Hs as <- <-.
    fields. rewrite Hn. cbn. by rewrite Hv.
  - rewrite content_setter_tuple in Hs.
    destruct (negb _) eqn:Hlen; [injection Hs as <- <-; by rewrite Hn, Hc |].
    destruct (forallb numeric items) eqn:Hall;
      [| injection Hs as <- <-; by rewrite Hn, Hc].
    injection Hs as <- <-. fields. rewrite Hn.
    destruct items as [|a [|b [|c [|d rest]]]]; cbn in *; try done.
    + rewrite andb_true_r in Hall.
      destruct (numeric a), (numeric b); try done.
    + rewrite andb_true_r in Hall.
      destruct (numeric a), (numeric b), (numeric c); try done.
  - rewrite content_setter_other in Hs by done. injection Hs as <- <-.
    fields. by rewrite Hn.
Qed.

Lemma name_setter_wf self n r self' :
  Data.name_setter n self = (r, self') -> wf self = true -> wf self' = true.
Proof.
  unfold wf. rewrite name_setter_spec. intros Hs Hwf.
  apply andb_true_iff in Hwf as [_ Hc].
  destruct (name_ok n) eqn:Hn; injection Hs as <- <-; fields; by rewrite ?Hn, Hc.
Qed.

Lemma content_setter_name self v r self' :
  Data.content_setter v self = (r, self') -> Data.name self' = Data.name self.
Proof.
  destruct (type_cases v) as [-> | [Hv | [[items ->] | Ho]]].
  - by intros [= <- <-].
  - rewrite content_setter_numeric by done. by intros [= <- <-].
  - rewrite content_setter_tuple.
    destruct (negb _); [by intros [= <- <-] |].
    destruct (negb _); by intros [= <- <-].
  - rewrite content_setter_other by done. by intros [= <- <-].
Qed.

(** ** Instances on the heap *)

Lemma on_last {A} (m : M Data.t A) (h : Data.heap) d :
  Data.on (length h) m (h ++ [d]) = let (r, d') := m d in (r, h ++ [d']).
Proof.
  unfold Data.on. rewrite list_lookup_middle by done.
  destruct (m d) as [r d']. f_equal.
  rewrite insert_app_r_alt by lia. by rewrite Nat.sub_diag.
Qed.

(** [copy] makes one new instance at the next location and binds its
    attributes from those of the original, which it only reads. *)
Lemma copy_spec (h : Data.heap) l me :
  h !! l = Some me ->
  Data.copy l h =
  (match fst (copied me) with
   | Return _ => Return (length h)
   | Raise e => Raise e
   end, h ++ [snd (copied me)]).
Proof.
  intros Hl. unfold Data.copy, copied, bind, Data.deref, lift.
  rewrite Hl.
  change (Data.new VNone VNone h)
    with (Return (length h), h ++ [Data.mk VNone VNone]).
  cbv iota beta.
  destruct (negb (is_None (Data.name me))).
  - rewrite on_last.
    destruct (Data.name_setter _ _) as [[[]|e] d1]; [| reflexivity].
    destruct (getslice (Data.content me)) as [c|e]; [| reflexivity].
    rewrite on_last. by destruct (Data.content_setter c d1) as [[[]|e] d2].
  - unfold ret. cbv beta iota.
    destruct (getslice (Data.content me)) as [c|e]; [| reflexivity].
    rewrite on_last. by destruct (Data.content_setter c _) as [[[]|e] d2].
Qed.

(** The copy of an instance that satisfies the invariant: it has the same
    attributes when the content is a point, and there is no copy
    otherwise, since [None] and the placeholder cannot be sliced. *)
Lemma copied_wf me :
  wf me = true ->
  copied me =
  match Data.content me with
  | VTuple _ => (Return tt, me)
  | _ => (Raise (TypeError no_getitem), Data.mk (Data.name me) VNone)
  end.
Proof.
  destruct me as [n c]. unfold wf, copied. fields. intros Hwf.
  apply andb_true_iff in Hwf as [Hn Hc]. unfold bind.
  assert (Hstep :
    (if negb (is_None n) then Data.name_setter n else ret tt)
      (Data.mk VNone VNone) = (Return tt, Data.mk n VNone)).
  { destruct n; try done; cbn [is_None negb];
      rewrite name_setter_spec; by rewrite Hn. }
  rewrite Hstep. clear Hstep.
  destruct c as [| | z | | | | |items| | |]; try done.
  unfold lift. cbn [getslice]. rewrite content_setter_tuple.
  destruct items as [|a [|b [|c [|d rest]]]]; try done.
  cbn in Hc. cbn. rewrite andb_true_r.
  destruct (numeric a), (numeric b), (numeric c); done.
Qed.

(** ** The loop of the series setter *)

Lemma init_item item :
  Data.__init__ VNone item Data.unbound = Data.content_setter item Data.unbound.
Proof.
  unfold Data.__init__, bind.
  destruct (Data.content_setter item Data.unbound) as [[[]|e] d] eqn:Hs; [| done].
  rewrite name_setter_spec. cbn [name_ok].
  apply content_setter_name in Hs. destruct d as [n c]. fields. by subst.
Qed.

Lemma loop_body_spec item (h : Data.heap) s :
  Series.loop_body item (h, s) =
  match created h item with
  | (Return _, d) => (Return tt, (h ++ [d], push s (length h)))
  | (Raise e, _) => (Raise e, (h ++ litter h item, s))
  end.
Proof.
  assert (Hnew : forall x, (forall l, x <> VData l) ->
    (let* c := Series.on_heap (Data.new VNone x) in Series.append c) (h, s) =
    match Data.__init__ VNone x Data.unbound with
    | (Return _, d) => (Return tt, (h ++ [d], push s (length h)))
    | (Raise e, _) => (Raise e, (h ++ [], s))
    end).
  { intros x _. unfold bind, Series.on_heap, Data.new.
    destruct (Data.__init__ VNone x Data.unbound) as [[[]|e] d];
      [done | by rewrite app_nil_r]. }
  destruct item; try (apply Hnew; discriminate).
  unfold Series.loop_body, created, litter, bind, Series.on_heap.
  destruct (h !! l) as [me|] eqn:Hl.
  - rewrite (copy_spec h l me Hl). by destruct (copied me) as [[[]|e] d].
  - unfold Data.copy, bind, Data.deref. rewrite Hl. by rewrite app_nil_r.
Qed.

Lemma for_each_app {S A} (xs ys : list A) (body : A -> M S unit) st :
  for_each (xs ++ ys) body st =
  match for_each xs body st with
  | (Return _, st') => for_each ys body st'
  | (Raise e, st') => (Raise e, st')
  end.
Proof.
  revert st. induction xs as [|x xs IH]; intros st; simpl; [done |].
  unfold bind. destruct (body x st) as [[[]|e] st']; [apply IH | done].
Qed.

(** A round raises one of the errors of [Data], never one of the two
    errors of the series setter. *)
Lemma getslice_error x e : getslice x = Raise e -> e = TypeError no_getitem.
Proof. destruct x; simpl; congruence. Qed.

Lemma copied_error me e d :
  copied me = (Raise e, d) ->
  e <> TypeError series_not_both_types /\ e <> TypeError series_must_be_list.
Proof.
  assert (Hrest : forall d0,
    match getslice (Data.content me) with
    | Return c => Data.content_setter c d0
    | Raise e0 => (Raise e0, d0)
    end = (Raise e, d) ->
    e <> TypeError series_not_both_types /\ e <> TypeError series_must_be_list).
  { intros d0. destruct (getslice _) eqn:Hg.
    - intros H. apply content_setter_raise in H.
      destruct H as [(_ & _ & [-> | ->]) | (_ & _ & ->)]; done.
    - apply getslice_error in Hg as ->. by intros [= <- <-]. }
  unfold copied, bind, lift.
  destruct (negb (is_None (Data.name me))).
  - rewrite name_setter_spec. destruct (name_ok _); [apply Hrest |].
    by intros [= <- <-].
  - unfold ret. apply Hrest.
Qed.

Lemma created_error (h : Data.heap) item e d :
  created h item = (Raise e, d) ->
  e <> TypeError series_not_both_types /\ e <> TypeError series_must_be_list.
Proof.
  assert (Hnew : Data.__init__ VNone item Data.unbound = (Raise e, d) ->
    e <> TypeError series_not_both_types /\ e <> TypeError series_must_be_list).
  { rewrite init_item. intros H. apply content_setter_raise in H.
    destruct H as [(_ & _ & [-> | ->]) | (_ & _ & ->)]; done. }
  destruct item; try exact Hnew. unfold created.
  destruct (h !! l); [apply copied_error | by intros [= <- <-]].
Qed.

(** Whatever the loop does, it leaves the name of the series and the
    instances that were on the heap alone. *)
Lemma loop_frame items : forall (h : Data.heap) s r h' s',
  for_each items Series.loop_body (h, s) = (r, (h', s')) ->
  Series.name s' = Series.name s /\ (exists extra, h' = h ++ extra) /\
  r <> Raise (TypeError series_not_both_types) /\
  r <> Raise (TypeError series_must_be_list).
Proof.
  induction items as [|x xs IH]; intros h s r h' s'; simpl.
  - intros [= <- <- <-]. repeat split; try done. exists []. by rewrite app_nil_r.
  - unfold bind. rewrite loop_body_spec.
    destruct (created h x) as [[[]|e] d] eqn:Hc.
    + intros H. apply IH in H as (Hn & [extra ->] & Hr).
      repeat split; try tauto. exists (d :: extra). by rewrite <- app_assoc.
    + intros [= <- <- <-]. apply created_error in Hc as [H1 H2].
      repeat split; try congruence. by eexists.
Qed.

(** When the loop returns, it has made one instance per item, in order, at
    the next locations, and stored exactly these. *)
Lemma loop_returns items : forall (h : Data.heap) s h' s',
  for_each items Series.loop_body (h, s) = (Return tt, (h', s')) ->
  exists ds,
    length ds = length items /\ h' = h ++ ds /\
    s' = Series.mk (Series.name s)
           (Series.content s ++ seq (length h) (length items)) /\
    forall i item d, items !! i = Some item -> ds !! i = Some d ->
      created (h ++ take i ds) item = (Return tt, d).
Proof.
  induction items as [|x xs IH]; intros h s h' s'; simpl.
  - intros [= <- <-]. exists []. repeat split; try done.
    + by rewrite app_nil_r.
    + destruct s. unfold Series.name, Series.content. simpl. by rewrite app_nil_r.
  - unfold bind. rewrite loop_body_spec.
    destruct (created h x) as [[[]|e] d] eqn:Hc; [| discriminate].
    intros H. apply IH in H as (ds & Hlen & -> & -> & Hall).
    exists (d :: ds). split; [simpl; lia |]. split; [by rewrite <- app_assoc |].
    split.
    + unfold push, Series.name, Series.content. simpl.
      rewrite length_app, <- app_assoc. simpl. by rewrite Nat.add_1_r.
    + intros [|i] item d' Hi Hd; simpl in *.
      * injection Hi as <-. injection Hd as <-. by rewrite app_nil_r.
      * specialize (Hall i item d' Hi Hd). by rewrite <- app_assoc in Hall.
Qed.

(** Every instance the loop makes satisfies the invariant, also the one a
    failed round leaves behind. *)
Lemma copied_snd_wf me : wf (snd (copied me)) = true.
Proof.
  assert (Hrest : forall d0, wf d0 = true ->
    wf (snd (match getslice (Data.content me) with
             | Return c => Data.content_setter c d0
             | Raise e0 => (Raise e0, d0)
             end)) = true).
  { intros d0 Hd0. destruct (getslice _); [| done].
    destruct (Data.content_setter a d0) as [r d1] eqn:Hs.
    by apply content_setter_wf in Hs. }
  unfold copied, bind, lift.
  destruct (negb (is_None (Data.name me))).
  - destruct (Data.name_setter _ _) as [[[]|e] d1] eqn:Hs;
      apply name_setter_wf in Hs; try done. by apply Hrest.
  - unfold ret. by apply Hrest.
Qed.

Lemma init_snd_wf n c : wf (snd (Data.__init__ n c Data.unbound)) = true.
Proof.
  unfold Data.__init__, bind.
  destruct (Data.content_setter c Data.unbound) as [[[]|e] d1] eqn:Hs;
    apply content_setter_wf in Hs; try done.
  destruct (Data.name_setter n d1) as [r d2] eqn:Hn.
  by apply name_setter_wf in Hn.
Qed.

Lemma created_snd_wf (h : Data.heap) item : wf (snd (created h item)) = true.
Proof.
  destruct item; try apply init_snd_wf. unfold created.
  destruct (h !! l); [apply copied_snd_wf | done].
Qed.

Lemma loop_heap_wf items : forall (h : Data.heap) s r h' s',
  for_each items Series.loop_body (h, s) = (r, (h', s')) ->
  (forall d, d ∈ h -> wf d = true) -> forall d, d ∈ h' -> wf d = true.
Proof.
  induction items as [|x xs IH]; intros h s r h' s'; simpl.
  - by intros [= <- <- <-].
  - unfold bind. rewrite loop_body_spec.
    pose proof (created_snd_wf h x) as Hx.
    destruct (created h x) as [[[]|e] d0] eqn:Hc.
    + intros H Hwf. eapply IH; [exact H |].
      intros d Hd. apply elem_of_app in Hd as [Hd | Hd]; [by apply Hwf |].
      by apply list_elem_of_singleton in Hd as ->.
    + intros [= <- <- <-] Hwf d Hd.
      apply elem_of_app in Hd as [Hd | Hd]; [by apply Hwf |].
      destruct x; try by apply elem_of_nil in Hd.
      unfold litter in Hd. destruct (h !! l); [| by apply elem_of_nil in Hd].
      apply list_elem_of_singleton in Hd as ->. apply copied_snd_wf.
Qed.

(** An element that is live on the heap of the call is stored the same way
    however many instances have been made since. *)
Lemma created_later (h extra : Data.heap) x :
  (forall l, x = VData l -> l < length h) ->
  created (h ++ extra) x = created h x.
Proof.
  intros Hlive. destruct x; try done. unfold created.
  by rewrite lookup_app_l by by apply Hlive.
Qed.

Lemma storable_created (h : Data.heap) x :
  storable h x ->
  fst (created h x) = Return tt /\ (forall l, x = VData l -> l < length h).
Proof.
  destruct x; simpl; intros H; try (rewrite numeric_spec in H; discriminate);
    try (split; [| discriminate]); try reflexivity.
  - destruct H as [Hlen Hall].
    rewrite init_item, content_setter_tuple, Hall.
    by destruct Hlen as [-> | ->].
  - destruct H as (d & Hd & Hwf & Hp). rewrite Hd, copied_wf by done. split.
    + by destruct (Data.content d).
    + intros l' [= <-]. by eapply lookup_lt_Some.
Qed.

Lemma loop_accepts items : forall (h0 extra : Data.heap) s,
  (forall x, x ∈ items -> storable h0 x) ->
  fst (for_each items Series.loop_body (h0 ++ extra, s)) = Return tt.
Proof.
  induction items as [|x xs IH]; intros h0 extra s Hall; simpl; [done |].
  unfold bind. rewrite loop_body_spec.
  destruct (storable_created h0 x) as [Hc Hlive]; [apply Hall, list_elem_of_here |].
  rewrite created_later by done.
  destruct (created h0 x) as [[[]|e] d]; [| done].
  rewrite <- app_assoc. apply IH.
  intros y Hy. by apply Hall, list_elem_of_further.
Qed.

(** ** The setters of [Series] *)

Lemma mixed_spec items :
  py_max (map Series.is_num items) && py_max (map Series.is_tuple items) = true
  <-> has_number items /\ has_tuple items.
Proof.
  rewrite andb_true_iff, !py_max_existsb, !existsb_exists.
  unfold has_number, has_tuple, Series.is_tuple.
  setoid_rewrite <- list_elem_of_In. setoid_rewrite bool_decide_eq_true.
  reflexivity.
Qed.

Lemma series_setter_list (h : Data.heap) s items :
  Series.content_setter (VList items) (h, s) =
  if length items =? 0 then (Return tt, (h, Series.mk (Series.name s) []))
  else if py_max (map Series.is_num items) && py_max (map Series.is_tuple items)
  then (Raise (TypeError series_not_both_types), (h, s))
  else for_each items Series.loop_body (h, Series.mk (Series.name s) []).
Proof.
  unfold Series.content_setter.
  destruct (length items =? 0); [done |].
  by destruct (py_max _ && py_max _).
Qed.

Lemma series_setter_other (h : Data.heap) s v :
  v <> VNone -> type v <> list_ ->
  Series.content_setter v (h, s)
  = (Raise (TypeError series_must_be_list), (h, Series.mk (Series.name s) [])).
Proof. intros H1 H2. by destruct v. Qed.

Lemma series_name_setter_spec (h : Data.heap) s n :
  Series.name_setter n (h, s) =
  if name_ok n then (Return tt, (h, Series.mk n (Series.content s)))
  else (Raise (TypeError name_must_be_string),
        (h, Series.mk VNone (Series.content s))).
Proof.
  destruct n; try reflexivity;
    unfold Series.name_setter, bind, lift, ret; simpl;
    by destruct (0 <? String.length _).
Qed.

(** The setter returns on every list that passes the shape check and
    whose elements are all storable. *)
Lemma series_accepts (h : Data.heap) s items :
  ~ (has_number items /\ has_tuple items) ->
  (forall x, x ∈ items -> storable h x) ->
  fst (Series.content_setter (VList items) (h, s)) = Return tt.
Proof.
  intros Hshape Hall. rewrite series_setter_list.
  destruct (length items =? 0); [done |].
  destruct (py_max _ && py_max _) eqn:Hmix; [by apply mixed_spec in Hmix |].
  rewrite <- (app_nil_r h) at 1. by apply loop_accepts.
Qed.

(** The series setter keeps the invariant of every instance on the heap. *)
Lemma series_setter_heap_wf (h : Data.heap) s v r h' s' :
  Series.content_setter v (h, s) = (r, (h', s')) ->
  (forall d, d ∈ h -> wf d = true) -> forall d, d ∈ h' -> wf d = true.
Proof.
  destruct v as [| | | | | | | |items| |];
    try (rewrite series_setter_other by done; by intros [= <- <- <-]).
  - by intros [= <- <- <-].
  - rewrite series_setter_list.
    destruct (length items =? 0); [by intros [= <- <- <-] |].
    destruct (py_max _ && py_max _); [by intros [= <- <- <-] |].
    apply loop_heap_wf.
Qed.

(** * The statements of the specification *)

(** ** Content of a point *)

(** C1. Setting the content of any [Data] returns and stores the normal
    form: [None] is stored as [None], a number [v] as [(v, 0, 0)], a pair
    of numbers [(a, b)] as [(a, b, 0)] and a triple of numbers as itself;
    the getter [content] then reads exactly this value. *)
Theorem content_setter_normalizes (self : Data.t) :
  (exists self',
     Data.content_setter VNone self = (Return tt, self') /\
     Data.content self' = VNone) /\
  (forall v, numeric v = true ->
     exists self',
       Data.content_setter v self = (Return tt, self') /\
       Data.content self' = VTuple [v; VInt 0; VInt 0]) /\
  (forall a b, numeric a = true -> numeric b = true ->
     exists self',
       Data.content_setter (VTuple [a; b]) self = (Return tt, self') /\
       Data.content self' = VTuple [a; b; VInt 0]) /\
  (forall a b c, numeric a = true -> numeric b = true -> numeric c = true ->
     exists self',
       Data.content_setter (VTuple [a; b; c]) self = (Return tt, self') /\
       Data.content self' = VTuple [a; b; c]).
Proof.
  split; [| split; [| split]].
  - eexists. split; [apply content_setter_None | done].
  - intros v Hv. eexists. split; [by apply content_setter_numeric | done].
  - intros a b Ha Hb. eexists. split.
    + rewrite content_setter_tuple. cbn. rewrite Ha, Hb. reflexivity.
    + reflexivity.
  - intros a b c Ha Hb Hc. eexists. split.
    + rewrite content_setter_tuple. cbn. rewrite Ha, Hb, Hc. reflexivity.
    + reflexivity.
Qed.

Lemma content_setter_normalizes_witness :
  numeric (VInt 1) = true /\ numeric (VFloat S754_nan) = true /\
  exists self',
    Data.content_setter (VTuple [VInt 1; VFloat S754_nan]) d0
    = (Return tt, self') /\
    Data.content self' = VTuple [VInt 1; VFloat S754_nan; VInt 0].
Proof.
  split; [reflexivity |]. split; [reflexivity |].
  apply (proj1 (proj2 (proj2 (content_setter_normalizes d0))));
    reflexivity.
Defined.

(** C5. For a tuple, the content setter raises the arity error exactly
    when the length is neither 2 nor 3, raises the element error exactly
    when the length is 2 or 3 and some item is not a number, and returns
    exactly when the length is 2 or 3 and every item is a number. *)
Theorem content_setter_tuple_errors (self : Data.t) (items : list pyval) :
  let r := fst (Data.content_setter (VTuple items) self) in
  (r = Raise (TypeError two_or_three_items)
   <-> length items <> 2 /\ length items <> 3) /\
  (r = Raise (TypeError all_content_numbers)
   <-> (length items = 2 \/ length items = 3) /\
       exists x, x ∈ items /\ numeric x = false) /\
  (r = Return tt
   <-> (length items = 2 \/ length items = 3) /\
       forall x, x ∈ items -> numeric x = true).
Proof.
  cbv zeta. rewrite content_setter_tuple.
  rewrite <- forallb_false_exists, <- forallb_true_all.
  destruct (Nat.eqb_spec (length items) 2) as [H2|H2];
    destruct (Nat.eqb_spec (length items) 3) as [H3|H3];
    cbn [orb negb]; try lia;
    destruct (forallb numeric items); cbn [negb fst];
    repeat split; try discriminate; try lia; try tauto; intuition (discriminate || lia).
Qed.

(** C7, as it holds. A value that is neither [None], a number nor a tuple
    is refused with the content error and leaves the placeholder [0] as the
    stored content; a tuple that is refused, for its arity or for an item,
    leaves the stored content as it was. *)
Theorem failed_content_placeholder (self : Data.t) v e self' :
  Data.content_setter v self = (Raise e, self') ->
  (type v <> tuple ->
   e = TypeError content_must_be_numeric /\ Data.content self' = VInt 0) /\
  (type v = tuple ->
   (e = TypeError two_or_three_items \/ e = TypeError all_content_numbers) /\
   Data.content self' = Data.content self).
Proof.
  intros H. apply content_setter_raise in H.
  destruct H as [(Ht & -> & He) | (Ht & -> & ->)].
  - split; [done | auto].
  - split; [done |]. intros Hv. exfalso. apply Ht. rewrite Hv.
    rewrite !elem_of_cons. auto 10.
Qed.

Lemma failed_content_placeholder_witness :
  exists e self',
    Data.content_setter (VStr "x") d0 = (Raise e, self') /\
    e = TypeError content_must_be_numeric /\ Data.content self' = VInt 0.
Proof.
  exists (TypeError content_must_be_numeric), (Data.mk (VStr "a") (VInt 0)).
  split; [reflexivity |].
  apply (failed_content_placeholder d0 (VStr "x")); [reflexivity | discriminate].
Defined.

(** C7, as stated, fails: the 1-tuple [(1,)] is refused for its arity and
    the stored content stays [(1, 0, 0)], not the placeholder. *)
Lemma refused_tuple_keeps_content :
  Data.content_setter (VTuple [VInt 1]) d0
  = (Raise (TypeError two_or_three_items), d0) /\
  Data.content d0 <> VInt 0 /\
  ~ (forall self v e self',
       Data.content_setter v self = (Raise e, self') ->
       Data.content self' = VInt 0).
Proof.
  split; [reflexivity |]. split; [discriminate |].
  intros H. specialize (H d0 (VTuple [VInt 1]) _ _ eq_refl). discriminate.
Qed.

(** ** Length of a point *)

(** C8, on the code. After a number is assigned, [__len__] returns 3, the
    length of the stored tuple, where its docstring promises 1. *)
Theorem len_of_scalar_content (self : Data.t) v self' :
  numeric v = true ->
  Data.content_setter v self = (Return tt, self') ->
  Data.__len__ self' = Return 3.
Proof.
  intros Hv. rewrite content_setter_numeric by done. by intros [= <-].
Qed.

(** After a pair or a triple is assigned, the length is that of the stored
    tuple, which is 3 in both cases. *)
Lemma len_of_tuple_content (self : Data.t) items self' :
  Data.content_setter (VTuple items) self = (Return tt, self') ->
  exists stored,
    Data.content self' = VTuple stored /\ length stored = 3 /\
    Data.__len__ self' = Return (length stored).
Proof.
  rewrite content_setter_tuple.
  destruct (negb _) eqn:Hlen; [discriminate |].
  destruct (negb (forallb numeric items)); [discriminate |]. intros [= <-].
  eexists. split; [reflexivity |]. split; [| reflexivity].
  destruct items as [|a [|b [|c [|d rest]]]]; by cbn in *.
Qed.

Lemma len_of_scalar_content_witness :
  numeric (VInt 13) = true /\
  Data.content_setter (VInt 13) Data.unbound
  = (Return tt, Data.mk VNone (VTuple [VInt 13; VInt 0; VInt 0])) /\
  Data.__len__ (Data.mk VNone (VTuple [VInt 13; VInt 0; VInt 0])) = Return 3.
Proof.
  split; [reflexivity |]. split; [reflexivity |].
  apply (len_of_scalar_content Data.unbound (VInt 13)); reflexivity.
Defined.

(** ** Copy of a point *)

(** The copy of an instance whose content is a point: a new instance at
    the next location, with the same name and content, and the heap that
    was there untouched. *)
Lemma copy_of_point (h : Data.heap) l me :
  h !! l = Some me -> wf me = true -> point (Data.content me) = true ->
  Data.copy l h = (Return (length h), h ++ [me]).
Proof.
  intros Hl Hwf Hp. rewrite (copy_spec h l me Hl), (copied_wf me Hwf).
  by destruct (Data.content me).
Qed.

(** A setter run on one instance leaves every other instance alone. *)
Lemma on_other {A} (m : M Data.t A) (h : Data.heap) l l' :
  l <> l' -> snd (Data.on l' m h) !! l = h !! l.
Proof.
  intros Hne. unfold Data.on. destruct (h !! l') as [d|]; [| done].
  destruct (m d) as [r d']. simpl. by apply list_lookup_insert_ne.
Qed.

(** Assigning to the copy of a point never reaches the original. *)
Lemma copy_independent {A} (m : M Data.t A) (h : Data.heap) l me :
  h !! l = Some me -> wf me = true -> point (Data.content me) = true ->
  exists c h1,
    Data.copy l h = (Return c, h1) /\ c <> l /\ h1 !! l = Some me /\
    h1 !! c = Some me /\ snd (Data.on c m h1) !! l = Some me.
Proof.
  intros Hl Hwf Hp. exists (length h), (h ++ [me]).
  assert (Hlt : l < length h) by by eapply lookup_lt_Some.
  assert (Hl1 : (h ++ [me]) !! l = Some me) by by apply lookup_app_l_Some.
  split; [by apply copy_of_point |]. split; [lia |]. split; [done |].
  split; [by apply list_lookup_middle |].
  rewrite on_other by lia. done.
Qed.

(** C6, on the code. An instance without content is a valid one (it is
    what [Data()] and [clear] give), and [copy] raises on it: slicing
    [None] is a [TypeError]. *)
Theorem copy_of_contentless_raises :
  Data.new VNone VNone [] = (Return 0, [Data.mk VNone VNone]) /\
  snd (Data.clear d0) = Data.mk VNone VNone /\
  wf (Data.mk VNone VNone) = true /\
  fst (Data.copy 0 [Data.mk VNone VNone]) = Raise (TypeError no_getitem).
Proof. repeat split. Qed.

(** ** Series: the checks on the list *)

(** C2, as it holds. Setting the content of a series to a list raises the
    mixed-shape error exactly when the list holds a raw number and a raw
    tuple. A [Data] instance is neither, so a list of instances and raw
    numbers only, or of instances and raw tuples only, never raises this
    error; and the setter returns on it when each element is one that can
    be stored: a number, a tuple of two or three numbers, an instance whose
    content is a point. *)
Theorem series_mixed_shape_iff (h : Data.heap) (s : Series.t) items :
  let r := fst (Series.content_setter (VList items) (h, s)) in
  (r = Raise (TypeError series_not_both_types)
   <-> has_number items /\ has_tuple items) /\
  (forall l, numeric (VData l) = false /\ type (VData l) <> tuple) /\
  ((forall x, x ∈ items -> numeric x = true \/ type x = Data_) ->
   r <> Raise (TypeError series_not_both_types)) /\
  ((forall x, x ∈ items -> type x = tuple \/ type x = Data_) ->
   r <> Raise (TypeError series_not_both_types)) /\
  (~ (has_number items /\ has_tuple items) ->
   (forall x, x ∈ items -> storable h x) ->
   r = Return tt).
Proof.
  cbv zeta.
  assert (Hiff :
    fst (Series.content_setter (VList items) (h, s))
    = Raise (TypeError series_not_both_types)
    <-> has_number items /\ has_tuple items).
  { rewrite series_setter_list, <- mixed_spec.
    destruct (length items =? 0) eqn:Hlen.
    - apply Nat.eqb_eq, nil_length_inv in Hlen as ->. by split.
    - destruct (py_max _ && py_max _); [by split |].
      destruct (for_each _ _ _) as [r [h' s']] eqn:Hloop.
      apply loop_frame in Hloop as (_ & _ & Hr & _). by split. }
  split; [exact Hiff |]. split; [by split |].
  rewrite Hiff. split; [| split].
  - intros Hall (_ & b & Hb & Ht).
    destruct (Hall b Hb) as [Hn | Hd]; [| congruence].
    rewrite numeric_spec in Hn. by destruct b.
  - intros Hall ((a & Ha & Hn) & _).
    rewrite numeric_spec in Hn.
    destruct (Hall a Ha) as [Ht | Hd]; by destruct a.
  - apply series_accepts.
Qed.

Lemma series_mixed_shape_iff_witness :
  Series.content_setter (VList [VData 0; VInt 1]) ([d0], s0)
  = (Return tt,
     ([d0; d0; Data.mk VNone (VTuple [VInt 1; VInt 0; VInt 0])],
      Series.mk VNone [1; 2])) /\
  fst (Series.content_setter (VList [VData 0; VInt 1]) ([d0], s0))
  <> Raise (TypeError series_not_both_types) /\
  fst (Series.content_setter (VList [VData 0; VInt 1]) ([d0], s0)) = Return tt.
Proof.
  split; [reflexivity |].
  destruct (series_mixed_shape_iff [d0] s0 [VData 0; VInt 1])
    as (_ & _ & Hnum & _ & Hacc).
  split.
  - apply Hnum.
    intros x Hx. apply elem_of_cons in Hx as [-> | Hx]; [by right |].
    apply list_elem_of_singleton in Hx as ->. by left.
  - apply Hacc.
    + intros [_ (b & Hb & Ht)]. rewrite !elem_of_cons, elem_of_nil in Hb.
      destruct Hb as [-> | [-> | []]]; discriminate.
    + intros x Hx. rewrite !elem_of_cons, elem_of_nil in Hx.
      destruct Hx as [-> | [-> | []]]; [| reflexivity].
      exists d0. split; [reflexivity |]. split; reflexivity.
Defined.

(** C2, as stated, fails: a list of instances and raw tuples only, or of
    instances and raw numbers only, passes the shape check and can still be
    refused. [[Data('a', 1), (1,)]] is refused for the arity of its tuple,
    by the check of [Data] on each raw element, though every instance holds
    a point; [[Data(), 1]] is refused in [copy], which raises on an
    instance without content. *)
Lemma series_shape_passed_not_accepted :
  Series.content_setter (VList [VData 0; VTuple [VInt 1]])
    ([d0], Series.mk (VStr "s") [0])
  = (Raise (TypeError two_or_three_items),
     ([d0; d0], Series.mk (VStr "s") [1])) /\
  Data.new VNone VNone [] = (Return 0, [Data.mk VNone VNone]) /\
  Series.content_setter (VList [VData 0; VInt 1]) ([Data.mk VNone VNone], s0)
  = (Raise (TypeError no_getitem),
     ([Data.mk VNone VNone; Data.mk VNone VNone], s0)) /\
  ~ (forall (h : Data.heap) (s : Series.t) items,
       (forall d, d ∈ h -> wf d = true /\ point (Data.content d) = true) ->
       (forall l, VData l ∈ items -> l < length h) ->
       (forall x, x ∈ items -> type x = tuple \/ type x = Data_) ->
       fst (Series.content_setter (VList items) (h, s)) = Return tt) /\
  ~ (forall (h : Data.heap) (s : Series.t) items,
       (forall d, d ∈ h -> wf d = true) ->
       (forall l, VData l ∈ items -> l < length h) ->
       (forall x, x ∈ items -> numeric x = true \/ type x = Data_) ->
       fst (Series.content_setter (VList items) (h, s)) = Return tt).
Proof.
  split; [reflexivity |]. split; [reflexivity |]. split; [reflexivity |].
  split.
  - intros H.
    specialize (H [d0] s0 [VData 0; VTuple [VInt 1]]).
    discriminate H.
    + intros d Hd. apply list_elem_of_singleton in Hd as ->. by split.
    + intros l Hl. rewrite !elem_of_cons, elem_of_nil in Hl.
      destruct Hl as [[= ->] | [[=] | []]]. simpl. lia.
    + intros x Hx. rewrite !elem_of_cons, elem_of_nil in Hx.
      destruct Hx as [-> | [-> | []]]; [by right | by left].
  - intros H.
    specialize (H [Data.mk VNone VNone] s0 [VData 0; VInt 1]).
    discriminate H.
    + intros d Hd. by apply list_elem_of_singleton in Hd as ->.
    + intros l Hl. rewrite !elem_of_cons, elem_of_nil in Hl.
      destruct Hl as [[= ->] | [[=] | []]]. simpl. lia.
    + intros x Hx. rewrite !elem_of_cons, elem_of_nil in Hx.
      destruct Hx as [-> | [-> | []]]; [by right | by left].
Qed.

(** C9, as it holds. The series setter raises the type error exactly when
    the value is not [None] and its type is not [list]: a tuple, or any
    other sequence that is not a list, is refused. *)
Theorem series_type_error_iff (h : Data.heap) (s : Series.t) v :
  fst (Series.content_setter v (h, s)) = Raise (TypeError series_must_be_list)
  <-> v <> VNone /\ type v <> list_.
Proof.
  destruct v as [| | | | | | | |items| |];
    try (rewrite series_setter_other by done; by split).
  - split; [discriminate | by intros []].
  - rewrite series_setter_list.
    split; [| by intros []]. intros H. exfalso.
    destruct (length items =? 0); [done |].
    destruct (py_max _ && py_max _); [done |].
    destruct (for_each _ _ _) as [r [h' s']] eqn:Hloop.
    apply loop_frame in Hloop as (_ & _ & _ & Hr). by apply Hr.
Qed.

(** C9, as stated, fails: the tuple [(1, 2)] is a sequence and is not
    [None], and the setter raises the type error on it. *)
Lemma series_refuses_tuple :
  sequence (VTuple [VInt 1; VInt 2]) = true /\
  Series.content_setter (VTuple [VInt 1; VInt 2]) ([], s0)
  = (Raise (TypeError series_must_be_list), ([], s0)) /\
  ~ (forall h s v,
       fst (Series.content_setter v (h, s))
       = Raise (TypeError series_must_be_list)
       <-> v <> VNone /\ sequence v = false).
Proof.
  split; [reflexivity |]. split; [reflexivity |].
  intros H. specialize (H [] s0 (VTuple [VInt 1; VInt 2])).
  destruct H as [H _]. by destruct (H eq_refl).
Qed.

(** ** What a refused assignment leaves behind *)

(** C4, as it holds. A refused assignment never touches the other
    attribute. A tuple refused by [Data], and a list refused by [Series]
    for mixing shapes, leave the instance as it was; the other refusals
    store a placeholder first: [0] for the content of a point, [None] for
    a name, the empty list for the content of a series. *)
Theorem failed_mutation_effect :
  (forall self v e self',
     Data.content_setter v self = (Raise e, self') ->
     Data.name self' = Data.name self /\
     (e = TypeError content_must_be_numeric -> Data.content self' = VInt 0) /\
     (e <> TypeError content_must_be_numeric -> self' = self)) /\
  (forall self v e self',
     Data.name_setter v self = (Raise e, self') ->
     Data.content self' = Data.content self /\ Data.name self' = VNone) /\
  (forall (h : Data.heap) s v e h' s',
     Series.content_setter v (h, s) = (Raise e, (h', s')) ->
     Series.name s' = Series.name s /\
     (e = TypeError series_not_both_types -> h' = h /\ s' = s) /\
     (e = TypeError series_must_be_list ->
      h' = h /\ Series.content s' = [])) /\
  (forall (h : Data.heap) s v e h' s',
     Series.name_setter v (h, s) = (Raise e, (h', s')) ->
     h' = h /\ Series.content s' = Series.content s /\
     Series.name s' = VNone).
Proof.
  split; [| split; [| split]].
  - intros self v e self' H. split; [by eapply content_setter_name |].
    apply content_setter_raise in H.
    destruct H as [(_ & -> & [-> | ->]) | (_ & -> & ->)]; by split.
  - intros self v e self'. rewrite name_setter_spec.
    destruct (name_ok v); [discriminate |]. by intros [= <- <-].
  - intros h s v e h' s' H.
    destruct v as [| | | | | | | |items| |]; [discriminate | ..];
      try (rewrite series_setter_other in H by done;
           injection H as <- <- <-; by repeat split).
    rewrite series_setter_list in H.
    destruct (length items =? 0); [discriminate |].
    destruct (py_max _ && py_max _); [injection H as <- <- <-; by repeat split |].
    apply loop_frame in H as (Hn & _ & Hr1 & Hr2).
    split; [exact Hn |]. split; intros ->; by exfalso.
  - intros h s v e h' s'. rewrite series_name_setter_spec.
    destruct (name_ok v); [discriminate |]. by intros [= <- <- <-].
Qed.

Lemma failed_mutation_effect_witness :
  Data.content_setter (VTuple [VInt 1; VStr "x"]) d0
  = (Raise (TypeError all_content_numbers), d0) /\
  Data.name d0 = Data.name d0 /\
  (TypeError all_content_numbers = TypeError content_must_be_numeric ->
   Data.content d0 = VInt 0) /\
  (TypeError all_content_numbers <> TypeError content_must_be_numeric ->
   d0 = d0).
Proof.
  split; [reflexivity |].
  apply (proj1 failed_mutation_effect d0 (VTuple [VInt 1; VStr "x"])).
  reflexivity.
Defined.

(** C4, as stated, fails: assigning the text ["x"] to the content of a
    point is refused, and the stored content, [(1, 0, 0)] before, is [0]
    after. *)
Lemma refused_content_is_overwritten :
  Data.content_setter (VStr "x") d0
  = (Raise (TypeError content_must_be_numeric), Data.mk (VStr "a") (VInt 0)) /\
  Data.content (Data.mk (VStr "a") (VInt 0)) <> Data.content d0 /\
  ~ (forall self v e self',
       Data.content_setter v self = (Raise e, self') ->
       Data.name self' = Data.name self /\
       Data.content self' = Data.content self).
Proof.
  split; [reflexivity |]. split; [discriminate |].
  intros H. destruct (H d0 (VStr "x") _ _ eq_refl) as [_ Hc]. discriminate.
Qed.

(** ** Series: a refused element *)

(** C10, as it holds. Take a list that passes the shape check and an
    element of it that is neither [None], a number, a tuple nor a [Data]
    instance. If the elements before it are all stored without error, as
    they are when the setter is given them alone, the setter raises the
    content error of [Data] at this element, and the series is left
    holding the instances made for the elements before it, not its former
    content. *)
Theorem series_fails_after_prefix (h : Data.heap) s pre x post h1 s1 :
  ~ (has_number (pre ++ x :: post) /\ has_tuple (pre ++ x :: post)) ->
  type x ∉ [NoneType; int; float; long; tuple; Data_] ->
  Series.content_setter (VList pre) (h, s) = (Return tt, (h1, s1)) ->
  Series.content_setter (VList (pre ++ x :: post)) (h, s)
  = (Raise (TypeError content_must_be_numeric), (h1, s1)) /\
  Series.content s1 = seq (length h) (length pre) /\
  Series.__len__ s1 = length pre.
Proof.
  intros Hshape Hx Hpre.
  assert (Hloop : for_each pre Series.loop_body (h, Series.mk (Series.name s) [])
                  = (Return tt, (h1, s1))).
  { rewrite series_setter_list in Hpre.
    destruct (length pre =? 0) eqn:Hlen.
    - by apply Nat.eqb_eq, nil_length_inv in Hlen as ->.
    - by destruct (py_max _ && py_max _). }
  split.
  - rewrite series_setter_list.
    replace (length (pre ++ x :: post) =? 0) with false
      by (symmetry; apply Nat.eqb_neq; rewrite length_app; simpl; lia).
    destruct (py_max _ && py_max _) eqn:Hmix;
      [by apply mixed_spec in Hmix |].
    rewrite for_each_app, Hloop. simpl. unfold bind.
    rewrite loop_body_spec.
    assert (Hother : type x ∉ [NoneType; int; float; long; tuple]).
    { intros H. apply Hx. rewrite !elem_of_cons in *. tauto. }
    assert (Hdata : forall l, x <> VData l).
    { intros l ->. apply Hx. cbn. rewrite !elem_of_cons. auto 10. }
    destruct x; try (by destruct (Hdata l));
      cbn [created litter];
      rewrite init_item, content_setter_other by done;
      by rewrite app_nil_r.
  - apply loop_returns in Hloop as (ds & _ & _ & -> & _).
    unfold Series.__len__, Series.content. cbn. by rewrite length_seq.
Qed.

Lemma series_fails_after_prefix_witness :
  Series.content_setter (VList [VInt 1; VStr "x"; VInt 2]) ([d0], s0)
  = (Raise (TypeError content_must_be_numeric),
     ([d0; Data.mk VNone (VTuple [VInt 1; VInt 0; VInt 0])],
      Series.mk VNone [1])) /\
  Series.content (Series.mk VNone [1]) = seq 1 1 /\
  Series.__len__ (Series.mk VNone [1]) = 1.
Proof.
  apply (series_fails_after_prefix [d0] s0 [VInt 1] (VStr "x") [VInt 2]).
  - intros [_ (b & Hb & Ht)]. cbn [app] in Hb.
    rewrite !elem_of_cons, elem_of_nil in Hb.
    destruct Hb as [-> | [-> | [-> | []]]]; discriminate.
  - apply (proj1 (bool_decide_eq_false _)). reflexivity.
  - reflexivity.
Defined.

(** C10, as stated, fails twice. [None] is neither a number, a tuple nor
    an instance, and the list [[None]] is stored without any error. And in
    [[(1,), "x"]], which passes the shape check, the 1-tuple is refused
    first, with the arity error. *)
Lemma series_element_not_refused :
  (~ (has_number [VNone] /\ has_tuple [VNone]) /\
   numeric VNone = false /\ type VNone <> tuple /\ type VNone <> Data_ /\
   Series.content_setter (VList [VNone]) ([], s0)
   = (Return tt, ([Data.mk VNone VNone], Series.mk VNone [0]))) /\
  (~ (has_number [VTuple [VInt 1]; VStr "x"] /\
      has_tuple [VTuple [VInt 1]; VStr "x"]) /\
   numeric (VStr "x") = false /\ type (VStr "x") <> tuple /\
   type (VStr "x") <> Data_ /\
   Series.content_setter (VList [VTuple [VInt 1]; VStr "x"]) ([], s0)
   = (Raise (TypeError two_or_three_items), ([], s0))) /\
  ~ (forall (h : Data.heap) s items x,
       ~ (has_number items /\ has_tuple items) ->
       x ∈ items -> numeric x = false -> type x <> tuple -> type x <> Data_ ->
       fst (Series.content_setter (VList items) (h, s))
       = Raise (TypeError content_must_be_numeric)).
Proof.
  assert (Hnone : ~ (has_number [VNone] /\ has_tuple [VNone])).
  { intros [(a & Ha & Hn) _]. apply list_elem_of_singleton in Ha as ->.
    discriminate. }
  split; [| split].
  - repeat split; try done.
  - repeat split; try done.
    intros [(a & Ha & Hn) _]. rewrite !elem_of_cons, elem_of_nil in Ha.
    destruct Ha as [-> | [-> | []]]; discriminate.
  - intros H.
    specialize (H [] s0 [VNone] VNone Hnone).
    discriminate H; try done. apply list_elem_of_here.
Qed.

(** * Further properties of the code *)

(** ** Helper facts *)

Lemma name_ok_iff n :
  name_ok n = true
  <-> n = VNone \/ exists t, (n = VStr t \/ n = VUnicode t) /\ t <> EmptyString.
Proof.
  split.
  - destruct n; try discriminate; auto; simpl; intros H; right; exists s;
      (split; [auto |]); by intros ->.
  - intros [-> | (t & [-> | ->] & Ht)]; try done; by destruct t.
Qed.

Lemma content_ok_cases c :
  content_ok c = true -> c = VNone \/ c = VInt 0 \/ point c = true.
Proof. destruct c as [| |[]| | | | | | | |]; simpl; auto; discriminate. Qed.

Lemma content_setter_accepts self c :
  acceptable c = true ->
  Data.content_setter c self = (Return tt, Data.mk (Data.name self) (normal_form c)).
Proof.
  intros Hc. destruct (type_cases c) as [-> | [Hn | [[xs ->] | Ho]]].
  - done.
  - rewrite content_setter_numeric by done.
    rewrite numeric_spec in Hn. by destruct c.
  - rewrite content_setter_tuple. simpl in Hc.
    apply andb_true_iff in Hc as [Hlen Hall]. rewrite Hlen, Hall. cbn [negb].
    by destruct xs as [|a [|b [|c [|d rest]]]].
  - exfalso. destruct c; try discriminate; apply Ho; simpl;
      rewrite !elem_of_cons; auto 10.
Qed.

Lemma content_setter_refuses self c :
  acceptable c = false ->
  exists e self', Data.content_setter c self = (Raise e, self').
Proof.
  intros Hc. destruct (type_cases c) as [-> | [Hn | [[xs ->] | Ho]]].
  - discriminate.
  - rewrite numeric_spec in Hn. destruct c; discriminate.
  - rewrite content_setter_tuple. simpl in Hc.
    destruct ((length xs =? 2) || (length xs =? 3)); cbn [negb]; [| by eauto].
    simpl in Hc. rewrite Hc. by eauto.
  - rewrite content_setter_other by done. by eauto.
Qed.

Lemma normal_form_fixed c :
  acceptable c = true ->
  acceptable (normal_form c) = true /\ normal_form (normal_form c) = normal_form c.
Proof.
  intros Hc. destruct c; try discriminate; try done;
    try (simpl in *; rewrite numeric_spec in Hc; by rewrite ?Hc).
  simpl in Hc. apply andb_true_iff in Hc as [Hlen Hall].
  destruct items as [|a [|b [|c [|d rest]]]]; try discriminate; simpl in *;
    by split.
Qed.

Lemma normal_form_point c :
  acceptable c = true -> normal_form c = VNone \/ point (normal_form c) = true.
Proof.
  intros Hc. destruct c; try discriminate; auto; right;
    try (simpl in *; rewrite numeric_spec in Hc; by rewrite ?Hc).
  simpl in Hc. apply andb_true_iff in Hc as [Hlen Hall].
  destruct items as [|a [|b [|c [|d rest]]]]; try discriminate; simpl in *.
  - by destruct (numeric a), (numeric b).
  - by destruct (numeric a), (numeric b), (numeric c).
Qed.

Lemma clear_spec self : Data.clear self = (Return tt, Data.mk VNone VNone).
Proof. reflexivity. Qed.

Lemma do_call_wf c self : wf self = true -> wf (snd (do_call c self)) = true.
Proof.
  intros Hwf. destruct c as [v | v |]; cbn [do_call].
  - destruct (Data.content_setter v self) as [r d] eqn:H.
    by apply content_setter_wf in H.
  - destruct (Data.name_setter v self) as [r d] eqn:H.
    by apply name_setter_wf in H.
  - by rewrite clear_spec.
Qed.

Lemma run_calls_wf cs : forall self, wf self = true -> wf (run_calls cs self) = true.
Proof.
  induction cs as [|c cs IH]; intros self Hwf; simpl; [done |].
  by apply IH, do_call_wf.
Qed.

(** ** [Data]: what is accepted, and what an instance can hold *)

(** X1. The content setter returns exactly on [None], on a number (an
    [int], a [long] or a [float]; not a [bool]) and on a tuple of two or
    three numbers. What it then stores depends on the assigned value only,
    not on what was stored before, and is [None] or a 3-tuple of numbers. *)
Theorem content_setter_total (self : Data.t) (c : pyval) :
  (fst (Data.content_setter c self) = Return tt <-> acceptable c = true) /\
  (acceptable c = true ->
   snd (Data.content_setter c self) = Data.mk (Data.name self) (normal_form c) /\
   (normal_form c = VNone \/ point (normal_form c) = true)) /\
  acceptable (VBool true) = false.
Proof.
  split; [| split; [| done]].
  - destruct (acceptable c) eqn:Hc.
    + by rewrite content_setter_accepts.
    + destruct (content_setter_refuses self c Hc) as (e & self' & ->).
      by split.
  - intros Hc. rewrite content_setter_accepts by done.
    split; [done | by apply normal_form_point].
Qed.

Lemma content_setter_total_witness :
  acceptable (VTuple [VLong 4; VInt 5]) = true /\
  snd (Data.content_setter (VTuple [VLong 4; VInt 5]) d0)
  = Data.mk (VStr "a") (VTuple [VLong 4; VInt 5; VInt 0]) /\
  (normal_form (VTuple [VLong 4; VInt 5]) = VNone \/
   point (normal_form (VTuple [VLong 4; VInt 5])) = true).
Proof.
  split; [reflexivity |].
  apply (proj1 (proj2 (content_setter_total d0 (VTuple [VLong 4; VInt 5])))).
  reflexivity.
Defined.

(** X2. Normalization is idempotent: once an assignment of content has
    returned, assigning the stored content back ([d.content = d.content])
    returns too and changes nothing. *)
Theorem content_reassign (self : Data.t) (c : pyval) self' :
  Data.content_setter c self = (Return tt, self') ->
  Data.content_setter (Data.content self') self' = (Return tt, self').
Proof.
  intros H.
  assert (Hc : acceptable c = true).
  { destruct (acceptable c) eqn:Hc; [done |].
    destruct (content_setter_refuses self c Hc) as (e & d & He). congruence. }
  rewrite content_setter_accepts in H by done. injection H as <-.
  destruct (normal_form_fixed c Hc) as [Ha Hf].
  rewrite content_setter_accepts by done. fields. by rewrite Hf.
Qed.

Lemma content_reassign_witness :
  Data.content_setter (VInt 7) d0
  = (Return tt, Data.mk (VStr "a") (VTuple [VInt 7; VInt 0; VInt 0])) /\
  Data.content_setter (VTuple [VInt 7; VInt 0; VInt 0])
    (Data.mk (VStr "a") (VTuple [VInt 7; VInt 0; VInt 0]))
  = (Return tt, Data.mk (VStr "a") (VTuple [VInt 7; VInt 0; VInt 0])).
Proof.
  split; [reflexivity |].
  exact (content_reassign d0 (VInt 7)
           (Data.mk (VStr "a") (VTuple [VInt 7; VInt 0; VInt 0])) eq_refl).
Defined.

(** X3. The name setters of [Data] and of [Series] take [None] and any
    non-empty [str] or [unicode], which they store as it is; every other
    value, the empty text included, is refused with the name error, and
    [None] is stored. The content, and for a series the heap, are never
    touched. *)
Theorem name_setter_total (self : Data.t) (h : Data.heap) (s : Series.t) n :
  let valid :=
    n = VNone \/ exists t, (n = VStr t \/ n = VUnicode t) /\ t <> EmptyString in
  (valid ->
   Data.name_setter n self = (Return tt, Data.mk n (Data.content self)) /\
   Series.name_setter n (h, s)
   = (Return tt, (h, Series.mk n (Series.content s)))) /\
  (~ valid ->
   Data.name_setter n self
   = (Raise (TypeError name_must_be_string), Data.mk VNone (Data.content self)) /\
   Series.name_setter n (h, s)
   = (Raise (TypeError name_must_be_string),
      (h, Series.mk VNone (Series.content s)))).
Proof.
  cbv zeta. rewrite <- name_ok_iff.
  rewrite name_setter_spec, series_name_setter_spec.
  destruct (name_ok n); split; intros H; try done.
Qed.

Lemma name_setter_total_witness :
  Data.name_setter (VStr "") d0
  = (Raise (TypeError name_must_be_string), Data.mk VNone (Data.content d0)) /\
  Series.name_setter (VStr "") ([], s0)
  = (Raise (TypeError name_must_be_string),
     ([], Series.mk VNone (Series.content s0))).
Proof.
  apply (proj2 (name_setter_total d0 [] s0 (VStr ""))).
  intros [H | (t & [H | H] & Ht)]; try discriminate.
  injection H as <-. by apply Ht.
Defined.

(** X4. Every instance [Data(name, content)] hands out keeps, through any
    run of assignments and clears, whether they return or raise: a name
    that is [None] or a non-empty text, and a content that is [None], a
    3-tuple of numbers, or the placeholder [0] of a refused assignment. *)
Theorem data_invariant (h : Data.heap) n c l h' (cs : list call) :
  Data.new n c h = (Return l, h') ->
  exists d,
    h' !! l = Some d /\
    name_ok (Data.name (run_calls cs d)) = true /\
    (Data.content (run_calls cs d) = VNone \/
     Data.content (run_calls cs d) = VInt 0 \/
     point (Data.content (run_calls cs d)) = true).
Proof.
  unfold Data.new. pose proof (init_snd_wf n c) as Hwf.
  destruct (Data.__init__ n c Data.unbound) as [[[]|e] d]; [| discriminate].
  intros [= <- <-]. exists d. split; [by apply list_lookup_middle |].
  apply (run_calls_wf cs) in Hwf. unfold wf in Hwf.
  apply andb_true_iff in Hwf as [Hn Hc].
  split; [done | by apply content_ok_cases].
Qed.

Lemma data_invariant_witness :
  exists d,
    [Data.mk (VStr "p") (VTuple [VInt 1; VInt 2; VInt 0])] !! 0 = Some d /\
    name_ok (Data.name (run_calls
      [set_content (VStr "x"); set_name (VInt 3); set_content (VFloat S754_nan)] d))
    = true /\
    (Data.content (run_calls
       [set_content (VStr "x"); set_name (VInt 3); set_content (VFloat S754_nan)] d)
     = VNone \/
     Data.content (run_calls
       [set_content (VStr "x"); set_name (VInt 3); set_content (VFloat S754_nan)] d)
     = VInt 0 \/
     point (Data.content (run_calls
       [set_content (VStr "x"); set_name (VInt 3); set_content (VFloat S754_nan)] d))
     = true).
Proof.
  apply (data_invariant [] (VStr "p") (VTuple [VInt 1; VInt 2]) 0).
  reflexivity.
Defined.

(** X5. The constructor of [Data] validates the content before the name.
    A content that is not accepted makes it raise the error of the
    content, whatever the name is; with an accepted content and a name that
    is not, it raises the name error; otherwise it returns one new
    instance, with the name as given and the content in normal form. When
    it raises, no instance is left on the heap. *)
Theorem data_constructor (h : Data.heap) n c :
  (acceptable c = false ->
   exists e, Data.new n c h = (Raise e, h) /\
             e <> TypeError name_must_be_string) /\
  (acceptable c = true -> name_ok n = false ->
   Data.new n c h = (Raise (TypeError name_must_be_string), h)) /\
  (acceptable c = true -> name_ok n = true ->
   Data.new n c h = (Return (length h), h ++ [Data.mk n (normal_form c)])).
Proof.
  unfold Data.new, Data.__init__, bind. split; [| split].
  - intros Hc. destruct (content_setter_refuses Data.unbound c Hc) as (e & d & He).
    rewrite He. exists e. split; [done |].
    apply content_setter_raise in He.
    destruct He as [(_ & _ & [-> | ->]) | (_ & _ & ->)]; done.
  - intros Hc Hn. rewrite content_setter_accepts by done.
    by rewrite name_setter_spec, Hn.
  - intros Hc Hn. rewrite content_setter_accepts by done.
    by rewrite name_setter_spec, Hn.
Qed.

Lemma data_constructor_witness :
  Data.new (VInt 3) (VStr "x") [d0]
  = (Raise (TypeError content_must_be_numeric), [d0]) /\
  Data.new (VInt 3) (VInt 1) [d0]
  = (Raise (TypeError name_must_be_string), [d0]) /\
  Data.new (VUnicode "b") (VInt 1) [d0]
  = (Return 1, [d0; Data.mk (VUnicode "b") (VTuple [VInt 1; VInt 0; VInt 0])]).
Proof.
  split; [reflexivity |]. split.
  - apply (proj1 (proj2 (data_constructor [d0] (VInt 3) (VInt 1)))); reflexivity.
  - apply (proj2 (proj2 (data_constructor [d0] (VUnicode "b") (VInt 1))));
      reflexivity.
Defined.

(** X6. On an instance that satisfies the invariant, [__len__] returns 3
    when the content is a point and raises the interpreter's [TypeError]
    otherwise, that is when the content is [None] (as after [Data()] or
    [clear]) or the placeholder: it never returns 1 or 2. *)
Theorem len_of_instance (d : Data.t) :
  wf d = true ->
  (point (Data.content d) = true -> Data.__len__ d = Return 3) /\
  (point (Data.content d) = false ->
   Data.__len__ d = Raise (TypeError no_len) /\
   (Data.content d = VNone \/ Data.content d = VInt 0)).
Proof.
  unfold wf. intros Hwf. apply andb_true_iff in Hwf as [_ Hc].
  unfold Data.__len__. split.
  - intros Hp. destruct (Data.content d) as [| | | | | | |xs| | |]; try done.
    by destruct xs as [|a [|b [|c [|x rest]]]].
  - intros Hp. destruct (content_ok_cases _ Hc) as [-> | [-> | Hp']];
      [by auto | by auto | congruence].
Qed.

Lemma len_of_instance_witness :
  wf (Data.mk VNone VNone) = true /\
  Data.__len__ (Data.mk VNone VNone) = Raise (TypeError no_len) /\
  (Data.content (Data.mk VNone VNone) = VNone \/
   Data.content (Data.mk VNone VNone) = VInt 0).
Proof.
  split; [reflexivity |].
  apply (proj2 (len_of_instance (Data.mk VNone VNone) eq_refl)). reflexivity.
Defined.

(** X7. [clear] never raises, whatever the instance held: a [Data] is left
    with name [None] and content [None], a [Series] with name [None] and
    the empty list, and the heap is not touched. *)
Theorem clear_always_returns :
  (forall self, Data.clear self = (Return tt, Data.mk VNone VNone)) /\
  (forall (h : Data.heap) s,
     Series.clear (h, s) = (Return tt, (h, Series.mk VNone []))).
Proof. by split. Qed.

(** ** [copy] and the constructor of [Series] *)

(** X8. On an instance that satisfies the invariant, [copy] returns
    exactly when the content is a point: the copy is then one new instance,
    at the next location, with the same name and content. Otherwise (the
    content is [None] or the placeholder) it raises the interpreter's
    [TypeError]. In both cases every instance that was on the heap is left
    as it was. *)
Theorem copy_total (h : Data.heap) l d :
  h !! l = Some d -> wf d = true ->
  (point (Data.content d) = true ->
   Data.copy l h = (Return (length h), h ++ [d])) /\
  (point (Data.content d) = false ->
   fst (Data.copy l h) = Raise (TypeError no_getitem)) /\
  (forall l' d', h !! l' = Some d' -> snd (Data.copy l h) !! l' = Some d').
Proof.
  intros Hl Hwf. rewrite (copy_spec h l d Hl), (copied_wf d Hwf).
  split; [| split].
  - intros Hp. by destruct (Data.content d).
  - intros Hp. unfold wf in Hwf. apply andb_true_iff in Hwf as [_ Hc].
    destruct (content_ok_cases _ Hc) as [-> | [-> | Hp']]; [done | done | congruence].
  - intros l' d' Hl'. cbn [snd]. by apply lookup_app_l_Some.
Qed.

Lemma copy_total_witness :
  Data.copy 0 [d0] = (Return 1, [d0; d0]) /\
  fst (Data.copy 0 [Data.mk (VStr "a") (VInt 0)]) = Raise (TypeError no_getitem).
Proof.
  split.
  - apply (proj1 (copy_total [d0] 0 d0 eq_refl eq_refl)). reflexivity.
  - apply (proj1 (proj2 (copy_total [Data.mk (VStr "a") (VInt 0)] 0 _
                           eq_refl eq_refl))). reflexivity.
Defined.

(** X9. The copy of a point is independent of the original: it is another
    instance, and an assignment of content or name to it, or a [clear],
    whether it returns or raises, changes the copy as it would change the
    original and leaves the original with the attributes it had. *)
Theorem copy_never_reaches_original (h : Data.heap) l d :
  h !! l = Some d -> wf d = true -> point (Data.content d) = true ->
  exists c h1,
    Data.copy l h = (Return c, h1) /\ c <> l /\
    h1 !! l = Some d /\ h1 !! c = Some d /\
    forall k : call,
      snd (Data.on c (do_call k) h1) !! l = Some d /\
      snd (Data.on c (do_call k) h1) !! c = Some (snd (do_call k d)).
Proof.
  intros Hl Hwf Hp. exists (length h), (h ++ [d]).
  assert (Hlt : l < length h) by by eapply lookup_lt_Some.
  split; [by apply copy_of_point |]. split; [lia |].
  split; [by apply lookup_app_l_Some |].
  split; [by apply list_lookup_middle |].
  intros k. split.
  - rewrite on_other by lia. by apply lookup_app_l_Some.
  - rewrite on_last. destruct (do_call k d) as [r d']. cbn [snd].
    by apply list_lookup_middle.
Qed.

Lemma copy_never_reaches_original_witness :
  exists c h1,
    Data.copy 0 [d0] = (Return c, h1) /\ c <> 0 /\
    h1 !! 0 = Some d0 /\ h1 !! c = Some d0 /\
    forall k : call,
      snd (Data.on c (do_call k) h1) !! 0 = Some d0 /\
      snd (Data.on c (do_call k) h1) !! c = Some (snd (do_call k d0)).
Proof.
  apply (copy_never_reaches_original [d0] 0 d0); reflexivity.
Defined.

(** X10. The constructor of [Series] validates the name before the
    content, the other way round from [Data]. With a name that is refused
    it raises the name error without looking at the content: nothing is
    stored and no instance is made. With a name that is accepted it goes
    on as the content setter does on the named series. *)
Theorem series_constructor (h : Data.heap) (s : Series.t) n c :
  (name_ok n = false ->
   Series.__init__ n c (h, s)
   = (Raise (TypeError name_must_be_string),
      (h, Series.mk VNone (Series.content s)))) /\
  (name_ok n = true ->
   Series.__init__ n c (h, s)
   = Series.content_setter c (h, Series.mk n (Series.content s))).
Proof.
  unfold Series.__init__, bind. rewrite series_name_setter_spec.
  split; by intros ->.
Qed.

Lemma series_constructor_witness :
  Series.__init__ (VStr "") (VInt 5) ([d0], s0)
  = (Raise (TypeError name_must_be_string), ([d0], Series.mk VNone [])) /\
  Series.__init__ (VStr "n") (VList [VInt 5]) ([d0], s0)
  = (Return tt,
     ([d0; Data.mk VNone (VTuple [VInt 5; VInt 0; VInt 0])],
      Series.mk (VStr "n") [1])).
Proof.
  split.
  - apply (proj1 (series_constructor [d0] s0 (VStr "") (VInt 5))). reflexivity.
  - rewrite (proj2 (series_constructor [d0] s0 (VStr "n") (VList [VInt 5])) eq_refl).
    reflexivity.
Defined.

(** ** The series setter: ownership, acceptance and refusal *)

(** However the loop ends, the heap has only grown and the series holds
    its former content followed by the instances of the rounds that
    returned. *)
Lemma loop_shape items : forall (h : Data.heap) s r h' s',
  for_each items Series.loop_body (h, s) = (r, (h', s')) ->
  exists extra k,
    h' = h ++ extra /\ k <= length extra /\
    Series.content s' = Series.content s ++ seq (length h) k.
Proof.
  induction items as [|x xs IH]; intros h s r h' s'; simpl.
  - intros [= <- <- <-]. exists [], 0. by rewrite !app_nil_r.
  - unfold bind. rewrite loop_body_spec.
    destruct (created h x) as [[[]|e] d] eqn:Hc.
    + intros H. apply IH in H as (extra & k & -> & Hk & ->).
      exists (d :: extra), (S k). rewrite <- !app_assoc. simpl.
      rewrite length_app. simpl. rewrite Nat.add_1_r.
      split; [done |]. split; [lia |]. by rewrite <- app_assoc.
    + intros [= <- <- <-]. exists (litter h x), 0.
      split; [done |]. split; [lia | by rewrite app_nil_r].
Qed.

(** What a round that returns has made. *)
Lemma created_result (h : Data.heap) x d :
  (forall d', d' ∈ h -> wf d' = true) ->
  created h x = (Return tt, d) ->
  storable h x /\ wf d = true /\
  ((x = VNone /\ Data.content d = VNone) \/ point (Data.content d) = true).
Proof.
  intros Hwf Hc.
  assert (Hraw : (forall l, x <> VData l) ->
    Data.__init__ VNone x Data.unbound = (Return tt, d) ->
    acceptable x = true /\ wf d = true /\
    ((x = VNone /\ Data.content d = VNone) \/ point (Data.content d) = true)).
  { intros _ Hi. rewrite init_item in Hi.
    destruct (acceptable x) eqn:Ha.
    - rewrite content_setter_accepts in Hi by done. injection Hi as <-.
      split; [done |]. split.
      + unfold wf. fields. cbn [name_ok andb].
        destruct (normal_form_point x Ha) as [-> | Hp]; [done |].
        by destruct (normal_form x) as [| | | | | | |[|?[|?[|?[|]]]]| | |].
      + destruct (normal_form_point x Ha) as [Hn | Hp]; [left | by right].
        split; [| done]. by destruct x as [| | | | | | |[|?[|?[|?[|]]]]| | |].
    - destruct (content_setter_refuses Data.unbound x Ha) as (e & d' & He).
      congruence. }
  destruct x; try (destruct Hraw as (Ha & Hd & Hp); [discriminate | exact Hc |];
                   split; [| by split]; simpl in *; try done).
  - apply andb_true_iff in Ha as [Hlen Hall]. split; [| done].
    apply orb_true_iff in Hlen as [Hlen | Hlen]; apply Nat.eqb_eq in Hlen; auto.
  - unfold created in Hc. destruct (h !! l) as [me|] eqn:Hl; [| discriminate].
    assert (Hme : wf me = true) by (eapply Hwf, list_elem_of_lookup_2, Hl).
    rewrite copied_wf in Hc by done.
    destruct (Data.content me) as [| | | | | | |xs| | |] eqn:Hcont; try discriminate.
    injection Hc as <-.
    assert (Hp : point (Data.content me) = true).
    { unfold wf in Hme. apply andb_true_iff in Hme as [_ Hok].
      by rewrite Hcont in *. }
    split; [by exists me |]. split; [done | by right].
Qed.

(** The loop stops at the first element whose round raises, with the
    exception of that round, and the series then holds the instances made
    for the elements before it. *)
Lemma loop_stops_at pre x post (h : Data.heap) s e g :
  (forall y, y ∈ pre -> storable h y) ->
  (forall l, x = VData l -> l < length h) ->
  created h x = (Raise e, g) ->
  exists ds,
    length ds = length pre /\
    for_each (pre ++ x :: post) Series.loop_body (h, s)
    = (Raise e,
       ((h ++ ds) ++ litter (h ++ ds) x,
        Series.mk (Series.name s)
          (Series.content s ++ seq (length h) (length pre)))).
Proof.
  intros Hpre Hlive Hc. rewrite for_each_app.
  pose proof (loop_accepts pre h [] s Hpre) as Hret. rewrite app_nil_r in Hret.
  destruct (for_each pre Series.loop_body (h, s)) as [r [h1 s1]] eqn:Hloop.
  simpl in Hret. subst r.
  apply loop_returns in Hloop as (ds & Hlen & -> & -> & _).
  exists ds. split; [done |]. simpl. unfold bind.
  rewrite loop_body_spec, created_later, Hc by done. reflexivity.
Qed.

(** A list on which the setter returns passes the shape check and has
    only elements that can be stored. *)
Lemma series_returns_storable (h : Data.heap) (s : Series.t) items h' s' :
  (forall d, d ∈ h -> wf d = true) ->
  (forall l, VData l ∈ items -> l < length h) ->
  Series.content_setter (VList items) (h, s) = (Return tt, (h', s')) ->
  ~ (has_number items /\ has_tuple items) /\
  forall x, x ∈ items -> storable h x.
Proof.
  intros Hwf Hlive. rewrite series_setter_list.
  destruct (length items =? 0) eqn:Hlen.
  { apply Nat.eqb_eq, nil_length_inv in Hlen as ->. intros _. split.
    - intros [(a & Ha & _) _]. by apply elem_of_nil in Ha.
    - intros x Hx. by apply elem_of_nil in Hx. }
  destruct (py_max _ && py_max _) eqn:Hmix; [discriminate |].
  intros Hloop. split.
  - intros Hm. apply mixed_spec in Hm. congruence.
  - apply loop_returns in Hloop as (ds & Hds & _ & _ & Hall).
    intros x Hx. apply list_elem_of_lookup in Hx as [i Hi].
    assert (Hlt : i < length items) by by eapply lookup_lt_Some.
    destruct (lookup_lt_is_Some_2 ds i) as [d Hd]; [lia |].
    specialize (Hall i x d Hi Hd).
    rewrite created_later in Hall.
    + by apply (created_result h x d Hwf Hall).
    + intros l ->. apply Hlive. by eapply list_elem_of_lookup_2.
Qed.

(** X11. The series setter owns what it stores. Whatever it is given and
    however it ends, every instance that was on the heap is still there
    with the attributes it had; and unless the series is left exactly as
    it was, every element it holds afterwards is an instance made during
    this call, never one the caller passed in. *)
Theorem series_owns_its_elements (h : Data.heap) (s : Series.t) v r h' s' :
  Series.content_setter v (h, s) = (r, (h', s')) ->
  (forall l d, h !! l = Some d -> h' !! l = Some d) /\
  (s' = s \/ forall c, c ∈ Series.content s' -> length h <= c < length h').
Proof.
  intros H.
  assert (Hnil : forall n, (h', s') = (h, Series.mk n []) ->
    (forall l d, h !! l = Some d -> h' !! l = Some d) /\
    (s' = s \/ forall c, c ∈ Series.content s' -> length h <= c < length h')).
  { intros n [= -> ->]. split; [done |]. right. intros c Hc.
    by apply elem_of_nil in Hc. }
  destruct v as [| | | | | | | |items| |];
    try (rewrite series_setter_other in H by done;
         injection H as <- <- <-; by eapply Hnil).
  - injection H as <- <- <-. by eapply Hnil.
  - rewrite series_setter_list in H.
    destruct (length items =? 0); [injection H as <- <- <-; by eapply Hnil |].
    destruct (py_max _ && py_max _); [injection H as <- <- <-; auto |].
    apply loop_shape in H as (extra & k & -> & Hk & Hcont). split.
    + intros l d Hl. by apply lookup_app_l_Some.
    + right. intros c Hc. rewrite Hcont in Hc. cbn [Series.content Series._content app] in Hc.
      apply elem_of_seq in Hc. rewrite length_app. lia.
Qed.

Lemma series_owns_its_elements_witness :
  (forall l d, [d0] !! l = Some d -> [d0; d0] !! l = Some d) /\
  (Series.mk VNone [1] = s0 \/
   forall c, c ∈ Series.content (Series.mk VNone [1]) ->
             length [d0] <= c < length [d0; d0]).
Proof.
  apply (series_owns_its_elements [d0] s0 (VList [VData 0]) (Return tt)).
  reflexivity.
Defined.

(** X12. Which lists the series setter takes. On a heap whose instances
    satisfy the invariant, and for a list whose [Data] elements are on it,
    the setter returns exactly when the list does not mix a raw number
    with a raw tuple and each element is [None], a number, a tuple of two
    or three numbers, or an instance whose content is a point. *)
Theorem series_accepts_iff (h : Data.heap) (s : Series.t) items :
  (forall d, d ∈ h -> wf d = true) ->
  (forall l, VData l ∈ items -> l < length h) ->
  (fst (Series.content_setter (VList items) (h, s)) = Return tt
   <-> ~ (has_number items /\ has_tuple items) /\
       forall x, x ∈ items -> storable h x).
Proof.
  intros Hwf Hlive. split; [| intros [H1 H2]; by apply series_accepts].
  rewrite series_setter_list.
  destruct (length items =? 0) eqn:Hlen.
  { apply Nat.eqb_eq, nil_length_inv in Hlen as ->. intros _. split.
    - intros [(a & Ha & _) _]. by apply elem_of_nil in Ha.
    - intros x Hx. by apply elem_of_nil in Hx. }
  destruct (py_max _ && py_max _) eqn:Hmix; [discriminate |].
  destruct (for_each _ _ _) as [r [h' s']] eqn:Hloop. simpl. intros ->.
  split.
  - intros Hm. apply mixed_spec in Hm. congruence.
  - apply loop_returns in Hloop as (ds & Hds & _ & _ & Hall).
    intros x Hx. apply list_elem_of_lookup in Hx as [i Hi].
    assert (Hlt : i < length items) by by eapply lookup_lt_Some.
    destruct (lookup_lt_is_Some_2 ds i) as [d Hd]; [lia |].
    specialize (Hall i x d Hi Hd).
    rewrite created_later in Hall.
    + by apply (created_result h x d Hwf Hall).
    + intros l ->. apply Hlive. by eapply list_elem_of_lookup_2.
Qed.

Lemma series_accepts_iff_witness :
  fst (Series.content_setter (VList [VData 0; VData 1])
         ([d0; Data.mk VNone VNone], s0)) = Return tt
  <-> ~ (has_number [VData 0; VData 1] /\ has_tuple [VData 0; VData 1]) /\
      forall x, x ∈ [VData 0; VData 1] ->
                storable [d0; Data.mk VNone VNone] x.
Proof.
  apply (series_accepts_iff [d0; Data.mk VNone VNone] s0 [VData 0; VData 1]).
  - intros d Hd. rewrite !elem_of_cons, elem_of_nil in Hd.
    destruct Hd as [-> | [-> | []]]; reflexivity.
  - intros l Hl. rewrite !elem_of_cons, elem_of_nil in Hl.
    destruct Hl as [[= ->] | [[= ->] | []]]; simpl; lia.
Defined.

(** X13. A series cannot take an instance without content. If a list
    passes the shape check, its elements before some [Data] instance can
    all be stored, and that instance holds [None] or the placeholder
    instead of a point, the setter raises the [TypeError] of [copy] there,
    and the series is left holding the instances made for the elements
    before it, under its former name. *)
Theorem series_refuses_contentless_instance
    (h : Data.heap) (s : Series.t) pre l post d :
  ~ (has_number (pre ++ VData l :: post) /\ has_tuple (pre ++ VData l :: post)) ->
  (forall y, y ∈ pre -> storable h y) ->
  h !! l = Some d -> wf d = true -> point (Data.content d) = false ->
  exists h' s',
    Series.content_setter (VList (pre ++ VData l :: post)) (h, s)
    = (Raise (TypeError no_getitem), (h', s')) /\
    Series.content s' = seq (length h) (length pre) /\
    Series.name s' = Series.name s.
Proof.
  intros Hshape Hpre Hl Hwf Hp. rewrite series_setter_list.
  replace (length (pre ++ VData l :: post) =? 0) with false
    by (symmetry; apply Nat.eqb_neq; rewrite length_app; simpl; lia).
  destruct (py_max _ && py_max _) eqn:Hmix; [by apply mixed_spec in Hmix |].
  assert (Hc : created h (VData l)
               = (Raise (TypeError no_getitem), Data.mk (Data.name d) VNone)).
  { unfold created. rewrite Hl, copied_wf by done.
    unfold wf in Hwf. apply andb_true_iff in Hwf as [_ Hc].
    destruct (content_ok_cases _ Hc) as [-> | [-> | Hp']]; [done | done | congruence]. }
  assert (Hlive : forall l', VData l = VData l' -> l' < length h).
  { intros l' [= <-]. by eapply lookup_lt_Some. }
  destruct (loop_stops_at pre (VData l) post h
              (Series.mk (Series.name s) []) _ _ Hpre Hlive Hc) as (ds & _ & ->).
  by eexists _, _.
Qed.

Lemma series_refuses_contentless_instance_witness :
  exists h' s',
    Series.content_setter (VList ([VInt 1] ++ VData 0 :: [VInt 2]))
      ([Data.mk VNone VNone], s0)
    = (Raise (TypeError no_getitem), (h', s')) /\
    Series.content s' = seq (length [Data.mk VNone VNone]) (length [VInt 1]) /\
    Series.name s' = Series.name s0.
Proof.
  apply (series_refuses_contentless_instance
           [Data.mk VNone VNone] s0 [VInt 1] 0 [VInt 2] (Data.mk VNone VNone)).
  - intros [_ (b & Hb & Ht)]. cbn [app] in Hb.
    rewrite !elem_of_cons, elem_of_nil in Hb.
    destruct Hb as [-> | [-> | [-> | []]]]; discriminate.
  - intros y Hy. apply list_elem_of_singleton in Hy as ->. reflexivity.
  - reflexivity.
  - reflexivity.
  - reflexivity.
Defined.

(** X14. For a raw element the series setter raises what [Data] raises.
    If a list passes the shape check, its elements before some raw element
    can all be stored, and assigning that element as the content of a
    [Data] raises, then the series setter raises the same exception; the
    series is left holding the instances made for the elements before it,
    and the heap holds these and nothing else new. *)
Theorem series_refuses_as_data (h : Data.heap) (s : Series.t) pre x post e :
  ~ (has_number (pre ++ x :: post) /\ has_tuple (pre ++ x :: post)) ->
  (forall y, y ∈ pre -> storable h y) ->
  type x <> Data_ ->
  fst (Data.content_setter x Data.unbound) = Raise e ->
  exists ds,
    length ds = length pre /\
    Series.content_setter (VList (pre ++ x :: post)) (h, s)
    = (Raise e,
       (h ++ ds, Series.mk (Series.name s) (seq (length h) (length pre)))).
Proof.
  intros Hshape Hpre Hx He. rewrite series_setter_list.
  replace (length (pre ++ x :: post) =? 0) with false
    by (symmetry; apply Nat.eqb_neq; rewrite length_app; simpl; lia).
  destruct (py_max _ && py_max _) eqn:Hmix; [by apply mixed_spec in Hmix |].
  destruct (Data.content_setter x Data.unbound) as [r g] eqn:Hs.
  simpl in He. subst r.
  assert (Hc : created h x = (Raise e, g)).
  { destruct x; try done; cbn [created]; by rewrite init_item. }
  assert (Hlive : forall l, x = VData l -> l < length h) by by intros l ->.
  destruct (loop_stops_at pre x post h
              (Series.mk (Series.name s) []) _ _ Hpre Hlive Hc) as (ds & Hlen & ->).
  exists ds. split; [done |].
  assert (Hl : litter (h ++ ds) x = []) by by destruct x.
  by rewrite Hl, app_nil_r.
Qed.

Lemma series_refuses_as_data_witness :
  exists ds,
    length ds = length [VTuple [VInt 1; VInt 2]] /\
    Series.content_setter
      (VList ([VTuple [VInt 1; VInt 2]] ++ VTuple [VInt 1; VBool true] :: []))
      ([d0], s0)
    = (Raise (TypeError all_content_numbers),
       ([d0] ++ ds,
        Series.mk (Series.name s0)
          (seq (length [d0]) (length [VTuple [VInt 1; VInt 2]])))).
Proof.
  apply (series_refuses_as_data [d0] s0 [VTuple [VInt 1; VInt 2]]
           (VTuple [VInt 1; VBool true]) []).
  - intros [(a & Ha & Hn) _]. cbn [app] in Ha.
    rewrite !elem_of_cons, elem_of_nil in Ha.
    destruct Ha as [-> | [-> | []]]; discriminate.
  - intros y Hy. apply list_elem_of_singleton in Hy as ->.
    split; [by left | reflexivity].
  - discriminate.
  - reflexivity.
Defined.

(** X15. The series setter keeps the invariant of every instance on the
    heap, those it makes included, whatever it is given and whether it
    returns or raises. *)
Theorem series_keeps_invariant (h : Data.heap) (s : Series.t) v r h' s' :
  (forall d, d ∈ h -> wf d = true) ->
  Series.content_setter v (h, s) = (r, (h', s')) ->
  forall d, d ∈ h' ->
    name_ok (Data.name d) = true /\
    (Data.content d = VNone \/ Data.content d = VInt 0 \/
     point (Data.content d) = true).
Proof.
  intros Hwf H d Hd.
  pose proof (series_setter_heap_wf h s v r h' s' H Hwf d Hd) as Hd'.
  unfold wf in Hd'. apply andb_true_iff in Hd' as [Hn Hc].
  split; [done | by apply content_ok_cases].
Qed.

Lemma series_keeps_invariant_witness :
  name_ok (Data.name (Data.mk (VStr "a") VNone)) = true /\
  (Data.content (Data.mk (VStr "a") VNone) = VNone \/
   Data.content (Data.mk (VStr "a") VNone) = VInt 0 \/
   point (Data.content (Data.mk (VStr "a") VNone)) = true).
Proof.
  apply (series_keeps_invariant [d0; Data.mk (VStr "a") VNone] s0
           (VList [VData 0; VData 1]) (Raise (TypeError no_getitem))
           [d0; Data.mk (VStr "a") VNone; d0; Data.mk (VStr "a") VNone]
           (Series.mk VNone [2])).
  - intros d Hd. rewrite !elem_of_cons, elem_of_nil in Hd.
    destruct Hd as [-> | [-> | []]]; reflexivity.
  - reflexivity.
  - rewrite !elem_of_cons. auto.
Defined.

(** X16. What a series holds after an assignment that returned. On a heap
    whose instances satisfy the invariant, and for a list whose [Data]
    elements are on it, every stored element has a content that is a
    3-tuple of numbers or [None], never the placeholder; and it is a
    3-tuple of numbers for all of them when the list has no [None]
    element. *)
Theorem series_elements_are_points (h : Data.heap) (s : Series.t) items h' s' :
  (forall d, d ∈ h -> wf d = true) ->
  (forall l, VData l ∈ items -> l < length h) ->
  Series.content_setter (VList items) (h, s) = (Return tt, (h', s')) ->
  forall c, c ∈ Series.content s' ->
    exists d,
      h' !! c = Some d /\
      (Data.content d = VNone \/ point (Data.content d) = true) /\
      (VNone ∉ items -> point (Data.content d) = true).
Proof.
  intros Hwf Hlive. rewrite series_setter_list.
  destruct (length items =? 0).
  { intros [= <- <-] c Hc. by apply elem_of_nil in Hc. }
  destruct (py_max _ && py_max _); [discriminate |].
  intros Hloop. apply loop_returns in Hloop as (ds & Hds & -> & -> & Hall).
  intros c Hc. cbn [Series.content Series._content app] in Hc.
  apply elem_of_seq in Hc.
  assert (Hi : exists i, c = length h + i /\ i < length items)
    by (exists (c - length h); lia).
  destruct Hi as (i & -> & Hlt).
  destruct (lookup_lt_is_Some_2 ds i) as [d Hd]; [lia |].
  destruct (lookup_lt_is_Some_2 items i Hlt) as [x Hx].
  specialize (Hall i x d Hx Hd). rewrite created_later in Hall.
  - destruct (created_result h x d Hwf Hall) as (_ & _ & Hcont).
    exists d. split.
    + rewrite lookup_app_r by lia.
      by replace (length h + i - length h) with i by lia.
    + split.
      * destruct Hcont as [[_ Hn] | Hp]; auto.
      * intros Hnone. destruct Hcont as [[-> _] | Hp]; [| done].
        exfalso. apply Hnone. by eapply list_elem_of_lookup_2.
  - intros l ->. apply Hlive. by eapply list_elem_of_lookup_2.
Qed.

Lemma series_elements_are_points_witness :
  exists d,
    [d0; d0; Data.mk VNone VNone] !! 2 = Some d /\
    (Data.content d = VNone \/ point (Data.content d) = true) /\
    (VNone ∉ [VData 0; VNone] -> point (Data.content d) = true).
Proof.
  apply (series_elements_are_points [d0] s0 [VData 0; VNone]
           [d0; d0; Data.mk VNone VNone] (Series.mk VNone [1; 2])).
  - intros d Hd. apply list_elem_of_singleton in Hd as ->. reflexivity.
  - intros l Hl. rewrite !elem_of_cons, elem_of_nil in Hl.
    destruct Hl as [[= ->] | [H | []]]; [simpl; lia | discriminate].
  - reflexivity.
  - cbn. rewrite !elem_of_cons. auto.
Defined.

(** ** Series: the stored sequence *)

(** C3. The lists that the series setter accepts are those that pass the
    shape check and whose elements can each be stored: on every such list
    the setter returns, and it returns on no other list. On an accepted
    list it has stored one new instance per element, in the order of the
    list: element [i] is stored at position [i], as the instance made at
    the [i]-th location after the heap of the call, so the stored sequence
    is as long as the list. An element that is a [Data] instance gives a
    new instance with the same name and content, and the original is left
    as it was; a raw number [v] gives content [(v, 0, 0)], a raw pair
    [(a, b)] gives [(a, b, 0)] and a raw triple gives itself, all unnamed.
    [None] and the empty list both give the empty series, of length 0. *)
Theorem series_stores_accepted_list (h : Data.heap) (s : Series.t) :
  (forall items,
     ~ (has_number items /\ has_tuple items) ->
     (forall x, x ∈ items -> storable h x) ->
     exists h' s',
       Series.content_setter (VList items) (h, s) = (Return tt, (h', s')) /\
       Series.__len__ s' = length items /\
       Series.name s' = Series.name s /\
       forall i item, items !! i = Some item ->
         exists obj,
           Series.content s' !! i = Some (length h + i) /\
           h' !! (length h + i) = Some obj /\
           (forall l, item = VData l ->
              exists d, h !! l = Some d /\ h' !! l = Some d /\
                        l <> length h + i /\ obj = d) /\
           (numeric item = true ->
              obj = Data.mk VNone (VTuple [item; VInt 0; VInt 0])) /\
           (forall a b, item = VTuple [a; b] ->
              obj = Data.mk VNone (VTuple [a; b; VInt 0])) /\
           (forall a b c, item = VTuple [a; b; c] ->
              obj = Data.mk VNone (VTuple [a; b; c])) /\
           (item = VNone -> obj = Data.mk VNone VNone)) /\
  (forall items h' s',
     (forall d, d ∈ h -> wf d = true) ->
     (forall l, VData l ∈ items -> l < length h) ->
     Series.content_setter (VList items) (h, s) = (Return tt, (h', s')) ->
     ~ (has_number items /\ has_tuple items) /\
     forall x, x ∈ items -> storable h x) /\
  (exists s', Series.content_setter VNone (h, s) = (Return tt, (h, s')) /\
              Series.content s' = [] /\ Series.__len__ s' = 0) /\
  (exists s', Series.content_setter (VList []) (h, s) = (Return tt, (h, s')) /\
              Series.content s' = [] /\ Series.__len__ s' = 0).
Proof.
  split; [| split; [| split; by eexists]].
  2: { intros items h' s'. apply series_returns_storable. }
  intros items Hshape Hall.
  pose proof (series_accepts h s items Hshape Hall) as Hret.
  destruct (Series.content_setter (VList items) (h, s)) as [r [h' s']] eqn:Hs.
  simpl in Hret. subst r. exists h', s'. split; [done |].
  rewrite series_setter_list in Hs.
  destruct (length items =? 0) eqn:Hlen.
  { apply Nat.eqb_eq, nil_length_inv in Hlen as ->. injection Hs as <- <-.
    split; [done |]. split; [done |]. by intros i item Hi. }
  destruct (py_max _ && py_max _); [discriminate |].
  apply loop_returns in Hs as (ds & Hds & -> & -> & Hmade).
  unfold Series.__len__, Series.content, Series.name.
  cbn [Series._content Series._name app].
  split; [by rewrite length_seq |]. split; [done |].
  intros i item Hi.
  assert (Hlt : i < length items) by by eapply lookup_lt_Some.
  destruct (lookup_lt_is_Some_2 ds i) as [obj Hobj]; [lia |].
  specialize (Hmade i item obj Hi Hobj).
  assert (Hst : storable h item) by (eapply Hall, list_elem_of_lookup_2, Hi).
  destruct (storable_created h item Hst) as [_ Hlive].
  rewrite created_later in Hmade by done.
  exists obj. split; [by apply lookup_seq_lt |].
  split; [rewrite lookup_app_r by lia;
          by replace (length h + i - length h) with i by lia |].
  split; [| split; [| split; [| split]]].
  - intros l ->. destruct Hst as (d & Hd & Hwf & Hp).
    cbn [created] in Hmade. rewrite Hd, copied_wf in Hmade by done.
    exists d. split; [done |]. split; [by apply lookup_app_l_Some |].
    split; [apply lookup_lt_Some in Hd; lia |].
    destruct (Data.content d); try discriminate. by injection Hmade.
  - intros Hn. rewrite numeric_spec in Hn.
    destruct item; try discriminate; cbn [created] in Hmade;
      rewrite init_item, content_setter_numeric in Hmade by done;
      by injection Hmade as <-.
  - intros a b ->. cbn [created] in Hmade.
    rewrite init_item, content_setter_tuple in Hmade. cbn in Hmade.
    destruct (negb _); [discriminate | by injection Hmade as <-].
  - intros a b c ->. cbn [created] in Hmade.
    rewrite init_item, content_setter_tuple in Hmade. cbn in Hmade.
    destruct (negb _); [discriminate | by injection Hmade as <-].
  - intros ->. by injection Hmade as <-.
Qed.

Lemma series_stores_accepted_list_witness :
  Series.content_setter (VList [VData 0; VInt 5]) ([d0], s0)
  = (Return tt,
     ([d0; d0; Data.mk VNone (VTuple [VInt 5; VInt 0; VInt 0])],
      Series.mk VNone [1; 2])) /\
  exists h' s',
    Series.content_setter (VList [VData 0; VInt 5]) ([d0], s0)
    = (Return tt, (h', s')) /\
    Series.__len__ s' = length [VData 0; VInt 5] /\
    Series.name s' = Series.name s0 /\
    forall i item, [VData 0; VInt 5] !! i = Some item ->
      exists obj,
        Series.content s' !! i = Some (length [d0] + i) /\
        h' !! (length [d0] + i) = Some obj /\
        (forall l, item = VData l ->
           exists d, [d0] !! l = Some d /\ h' !! l = Some d /\
                     l <> length [d0] + i /\ obj = d) /\
        (numeric item = true ->
           obj = Data.mk VNone (VTuple [item; VInt 0; VInt 0])) /\
        (forall a b, item = VTuple [a; b] ->
           obj = Data.mk VNone (VTuple [a; b; VInt 0])) /\
        (forall a b c, item = VTuple [a; b; c] ->
           obj = Data.mk VNone (VTuple [a; b; c])) /\
        (item = VNone -> obj = Data.mk VNone VNone).
Proof.
  split; [reflexivity |].
  apply (proj1 (series_stores_accepted_list [d0] s0) [VData 0; VInt 5]).
  - intros [_ (b & Hb & Ht)]. rewrite !elem_of_cons, elem_of_nil in Hb.
    destruct Hb as [-> | [-> | []]]; discriminate.
  - intros x Hx. rewrite !elem_of_cons, elem_of_nil in Hx.
    destruct Hx as [-> | [-> | []]]; [| reflexivity].
    exists d0. split; [reflexivity |]. split; reflexivity.
Defined.
